(** * Ternoa back end: the session relay (src/socket.io/creation.ts) and two
      methods of the user service (src/api/services/user.ts).

    The relay is embedded as a state-and-exception monad over a [world] that
    holds the socket.io adapter's room table, the listeners the connection
    handler has registered on each socket, the sockets that are connected,
    and the ordered trace of every effect the server performs (adapter
    joins, emissions, transport disconnects, acknowledgment calls, log
    lines).  socket.io itself is not part of the repository: its operations
    ([join], [to(..).emit], [disconnect], event dispatch, the closing of a
    socket) are modelled after socket.io 4.0 on Node's event emitter, and
    the code of creation.ts is transcribed on top of them. *)

From Stdlib Require Import ZArith.
From stdpp Require Import base gmap sets list strings pretty.

Set Warnings "-register-all".
Open Scope string_scope.

(** ** JavaScript values *)

(** Data that travels in frames and query results. *)
Inductive value : Type :=
  | VUndefined
  | VNull
  | VBool (b : bool)
  | VNum (n : Z)
  | VStr (s : string)
  | VArr (items : list value)
  | VObj (fields : list (string * value)).

(** What an argument position of a listener or of [emit] may hold: plain
    data, or a function.  The only functions the relay ever sees are the
    acknowledgment callbacks socket.io builds for a client that asked for
    one; [AFun k] is the callback of acknowledgment request [k]. *)
Inductive arg : Type :=
  | AVal (v : value)
  | AFun (k : nat).

Definition typeof_value (v : value) : string :=
  match v with
  | VUndefined => "undefined"
  | VNull => "object"
  | VBool _ => "boolean"
  | VNum _ => "number"
  | VStr _ => "string"
  | VArr _ => "object"
  | VObj _ => "object"
  end.

Definition typeof (a : arg) : string :=
  match a with
  | AVal v => typeof_value v
  | AFun _ => "function"
  end.

Definition truthy_value (v : value) : bool :=
  match v with
  | VUndefined => false
  | VNull => false
  | VBool b => b
  | VNum n => negb (n =? 0)%Z
  | VStr s => negb (String.eqb s "")
  | VArr _ => true
  | VObj _ => true
  end.

Definition truthy (a : arg) : bool :=
  match a with
  | AVal v => truthy_value v
  | AFun _ => true
  end.

(** [a && b]: the left operand when it is falsy, the right one otherwise. *)
Definition js_and (a b : arg) : arg := if truthy a then b else a.

(** ** The handshake query

    [socket.handshake.query.session] is [undefined] when the key is absent,
    a string when it occurs once, and an array of strings when the key is
    repeated in the query. *)
Inductive qval : Type :=
  | QAbsent
  | QStr (s : string)
  | QArr (l : list string).

Definition q_falsy (q : qval) : bool :=
  match q with
  | QAbsent => true
  | QStr s => String.eqb s ""
  | QArr _ => false
  end.

(** [session === lit] *)
Definition q_strict_eq (q : qval) (lit : string) : bool :=
  match q with
  | QStr s => String.eqb s lit
  | _ => false
  end.

Fixpoint join_with (sep : string) (l : list string) : string :=
  match l with
  | [] => ""
  | [x] => x
  | x :: rest => x +:+ sep +:+ join_with sep rest
  end.

(** String conversion, as in ['...' + session] and [`${session}`]. *)
Definition q_to_string (q : qval) : string :=
  match q with
  | QAbsent => "undefined"
  | QStr s => s
  | QArr l => join_with "," l
  end.

Record Socket : Type := mkSocket {
  id : string;
  handshake_query_session : qval
}.

(** ** Listeners

    creation.ts registers nine arrow functions on each socket it lets in.  Each
    closes over [socket] and [session]; a listener is the name of its body
    together with that environment. *)
Inductive listener_body : Type :=
  | on_PGPS_READY
  | on_PGPS_READY_RECEIVED
  | on_RUN_NFT_MINT
  | on_RUN_NFT_MINT_RECEIVED
  | on_MINTING_NFT
  | on_MINTING_NFT_RECEIVED
  | on_disconnect
  | on_timeout
  | on_close.

Record listener : Type := mkListener {
  body : listener_body;
  env_socket : Socket;
  env_session : qval
}.

(** ** Effects and the world *)

(** One call of [emit] on a broadcast operator: the sockets the adapter
    resolved as recipients at that moment, the event name and the arguments. *)
Record emission : Type := mkEmission {
  targets : gset string;
  tag : string;
  args : list arg
}.

Inductive effect : Type :=
  | EJoin (sid room : string)          (* adapter.addAll *)
  | EEmit (m : emission)               (* adapter.broadcast *)
  | EDisconnect (sid : string)         (* socket.disconnect() *)
  | EAck (k : nat) (v : value)         (* an acknowledgment callback called *)
  | EInfo (msg : string)               (* L.info *)
  | EConsole (msg : string).           (* console.log *)

Record world : Type := mkWorld {
  rooms : gmap string (gset string);               (* io.adapter.rooms *)
  listeners : gmap string (list (string * listener)); (* per socket id *)
  trace : list effect;
  adapter_up : bool;                               (* false: broadcasting throws *)
  connected : gset string                          (* sockets with [connected] true *)
}.

Definition empty_world : world :=
  {| rooms := ∅; listeners := ∅; trace := []; adapter_up := true; connected := ∅ |}.

Inductive exn : Type :=
  | TypeError (msg : string)
  | Error (msg : string)
  | AdapterError
  | UnhandledError (er : arg).   (* Node's ERR_UNHANDLED_ERROR, with its context *)

Inductive outcome (A : Type) : Type :=
  | Ok (a : A)
  | Throw (e : exn).
Arguments Ok {A} a.
Arguments Throw {A} e.

(** State is kept when an exception is thrown, as in JavaScript. *)
Definition M (A : Type) : Type := world → outcome A * world.

#[global] Instance M_ret : MRet M := λ A a w, (Ok a, w).
#[global] Instance M_bind : MBind M := λ A B f m w,
  match m w with
  | (Ok a, w') => f a w'
  | (Throw e, w') => (Throw e, w')
  end.

Definition throw {A} (e : exn) : M A := λ w, (Throw e, w).
Definition get_world : M world := λ w, (Ok w, w).

Definition log_effects (es : list effect) (w : world) : world :=
  {| rooms := rooms w; listeners := listeners w;
     trace := (trace w ++ es)%list; adapter_up := adapter_up w;
     connected := connected w |}.
Definition with_rooms (rs : gmap string (gset string)) (w : world) : world :=
  {| rooms := rs; listeners := listeners w;
     trace := trace w; adapter_up := adapter_up w; connected := connected w |}.
Definition with_listeners (ls : gmap string (list (string * listener))) (w : world) : world :=
  {| rooms := rooms w; listeners := ls;
     trace := trace w; adapter_up := adapter_up w; connected := connected w |}.
Definition with_connected (c : gset string) (w : world) : world :=
  {| rooms := rooms w; listeners := listeners w;
     trace := trace w; adapter_up := adapter_up w; connected := c |}.

Definition perform (e : effect) : M unit := λ w, (Ok tt, log_effects [e] w).
Definition set_rooms (rs : gmap string (gset string)) : M unit := λ w,
  (Ok tt, with_rooms rs w).
Definition set_listeners (ls : gmap string (list (string * listener))) : M unit := λ w,
  (Ok tt, with_listeners ls w).
Definition set_connected (c : gset string) : M unit := λ w,
  (Ok tt, with_connected c w).
(** The value of an expression statement is dropped. *)
Definition discard {A} (a : A) : M unit := mret tt.

(** ** socket.io, as far as creation.ts uses it

    The server side of socket.io 4.0: a socket has a [connected] flag, set
    when it connects and cleared when it closes; events of a client reach
    the listeners only while the flag is set; closing happens once. *)

Definition members (rs : gmap string (gset string)) (room : string) : gset string :=
  default ∅ (rs !! room).

(** [adapter.addAll(sid, {room})]: the room is created on first join. *)
Definition adapter_add (sid room : string) (rs : gmap string (gset string))
  : gmap string (gset string) :=
  <[room := {[sid]} ∪ members rs room]> rs.

(** [adapter.delAll(sid)]: the socket leaves every room it is in; a room
    left without members is deleted. *)
Definition adapter_del_all (sid : string) (rs : gmap string (gset string))
  : gmap string (gset string) :=
  omap (λ ms : gset string,
          if decide (sid ∈ ms)
          then (if decide (ms ∖ {[sid]} = ∅) then None else Some (ms ∖ {[sid]}))
          else Some ms) rs.

Fixpoint join_each (sid : string) (rs : list string) : M unit :=
  match rs with
  | [] => mret tt
  | r :: rest =>
      w ← get_world;
      set_rooms (adapter_add sid r (rooms w));;
      perform (EJoin sid r);;
      join_each sid rest
  end.

(** [socket.join(rooms)] takes one room or an array of rooms. *)
Definition socket_join (socket : Socket) (r : qval) : M unit :=
  match r with
  | QAbsent => mret tt
  | QStr s => join_each (id socket) [s]
  | QArr l => join_each (id socket) l
  end.

(** [emit] on a broadcast operator.  A trailing function argument is
    refused ("Callbacks are not supported when broadcasting"); otherwise
    [adapter.broadcast] hands the frame to every member of [room] outside
    [except].  When the adapter is unavailable the call throws. *)
Definition broadcast (room : string) (except : gset string)
    (ev : string) (a : list arg) : M unit :=
  match last a with
  | Some (AFun _) => throw (Error "Callbacks are not supported when broadcasting")
  | _ =>
      w ← get_world;
      if adapter_up w
      then perform (EEmit {| targets := members (rooms w) room ∖ except;
                             tag := ev; args := a |})
      else throw AdapterError
  end.

(** [io.to(room).emit(ev, ...a)] *)
Definition io_to_emit (room ev : string) (a : list arg) : M unit :=
  broadcast room ∅ ev a.

(** [socket.to(room).emit(ev, ...a)]: the sender itself is excluded. *)
Definition socket_to_emit (socket : Socket) (room ev : string) (a : list arg) : M unit :=
  broadcast room {[id socket]} ev a.

(** [socket.on(ev, l)]: listeners accumulate in registration order. *)
Definition socket_on (socket : Socket) (ev : string) (l : listener) : M unit :=
  w ← get_world;
  set_listeners
    (<[id socket := (default [] (listeners w !! id socket) ++ [(ev, l)])%list]> (listeners w)).

(** [f(v)]: calling something that is not a function is a TypeError. *)
Definition call (f : arg) (v : value) : M unit :=
  match f with
  | AFun k => perform (EAck k v)
  | AVal _ => throw (TypeError "callback is not a function")
  end.

Definition L_info (msg : string) : M unit := perform (EInfo msg).
Definition console_log (msg : string) : M unit := perform (EConsole msg).

(** [io.adapter.rooms.get(session).size]: [Map.get] of a key that is not in
    the map (an array never is) gives [undefined], whose [size] cannot be
    read. *)
Definition rooms_get_size (session : qval) : M nat :=
  w ← get_world;
  match session with
  | QStr s =>
      match rooms w !! s with
      | Some ms => mret (size ms)
      | None => throw (TypeError "Cannot read property 'size' of undefined")
      end
  | _ => throw (TypeError "Cannot read property 'size' of undefined")
  end.

(** ** creation.ts *)

Definition ok_true : value := VObj [("ok", VBool true)].
Definition sentinel : value := VNum 1.

(** Running a listener on the arguments of an event.  The six application
    listeners are lines 19-50, the three lifecycle listeners lines 51-62;
    each branch is the body of one arrow function, in source order.  [data]
    and [callback] are the first two arguments of the call, whatever they
    hold.  The lifecycle listeners take no parameters and ignore what they
    are given. *)
Definition run_listener (l : listener) (data callback : arg) : M unit :=
  let socket := env_socket l in
  let session := env_session l in
  match body l with
  | on_PGPS_READY =>
      let validCallback := js_and callback (AVal (VBool (String.eqb (typeof callback) "function"))) in
      socket_to_emit socket (q_to_string session) "PGPS_READY" [data];;
      if truthy validCallback then call callback ok_true else mret tt
  | on_PGPS_READY_RECEIVED =>
      let validCallback := js_and callback (AVal (VBool (String.eqb (typeof callback) "function"))) in
      socket_to_emit socket (q_to_string session) "PGPS_READY_RECEIVED" [data];;
      if truthy validCallback then call callback ok_true else mret tt
  | on_RUN_NFT_MINT =>
      let validCallback := js_and callback (AVal (VBool (String.eqb (typeof callback) "function"))) in
      socket_to_emit socket (q_to_string session) "RUN_NFT_MINT" [data];;
      if truthy validCallback then call callback ok_true else mret tt
  | on_RUN_NFT_MINT_RECEIVED =>
      let validCallback := js_and callback (AVal (VBool (String.eqb (typeof callback) "function"))) in
      socket_to_emit socket (q_to_string session) "RUN_NFT_MINT_RECEIVED" [data];;
      if truthy validCallback then call callback ok_true else mret tt
  | on_MINTING_NFT =>
      let validCallback := js_and callback (AVal (VBool (String.eqb (typeof callback) "function"))) in
      socket_to_emit socket (q_to_string session) "MINTING_NFT" [data];;
      if truthy validCallback then call callback ok_true else mret tt
  | on_MINTING_NFT_RECEIVED =>
      let validCallback := js_and callback (AVal (VBool (String.eqb (typeof callback) "function"))) in
      socket_to_emit socket (q_to_string session) "MINTING_NFT_RECEIVED" [data];;
      if truthy validCallback then call callback ok_true else mret tt
  | on_disconnect =>
      console_log "user disconnected";;
      socket_to_emit socket (q_to_string session) "USER_DISCONNECT" [AVal sentinel]
  | on_timeout =>
      console_log "user timeout";;
      socket_to_emit socket (q_to_string session) "USER_TIMEOUT" [AVal sentinel]
  | on_close =>
      console_log "user close";;
      socket_to_emit socket (q_to_string session) "USER_CLOSE" [AVal sentinel]
  end.

Fixpoint run_matching (ev : string) (ls : list (string * listener))
    (data callback : arg) : M unit :=
  match ls with
  | [] => mret tt
  | (name, l) :: rest =>
      (if String.eqb name ev then run_listener l data callback else mret tt);;
      run_matching ev rest data callback
  end.

Definition listens_to (ev : string) (ls : list (string * listener)) : bool :=
  existsb (λ p, String.eqb p.1 ev) ls.

(** [EventEmitter.prototype.emit] on the socket object: the listeners for
    [ev] run in registration order, and an exception escapes to the caller.
    Node throws when 'error' is emitted and nothing listens for it; the
    error thrown carries the first argument.  The emitter knows nothing of
    connections: [onclose] emits 'disconnect' through it on a socket that
    has just closed, while what a client sends goes through [on_event],
    which looks at the connection first. *)
Definition fire (sid ev : string) (data callback : arg) : M unit :=
  w ← get_world;
  let ls := default [] (listeners w !! sid) in
  if String.eqb ev "error" && negb (listens_to "error" ls)
  then throw (UnhandledError data)
  else run_matching ev ls data callback.

(** [socket._onclose]: nothing on a socket that has closed already;
    otherwise the socket leaves its rooms, stops being connected, and
    'disconnect' is emitted on it with the reason.  ('disconnecting' is
    emitted before the socket leaves; creation.ts does not listen to it.) *)
Definition onclose (sid : string) (reason : string) : M unit :=
  w ← get_world;
  if decide (sid ∈ connected w)
  then
    set_rooms (adapter_del_all sid (rooms w));;
    set_connected (connected w ∖ {[sid]});;
    fire sid "disconnect" (AVal (VStr reason)) (AVal VUndefined)
  else mret tt.

(** [socket.disconnect()]: nothing on a socket that has closed already. *)
Definition socket_disconnect (socket : Socket) : M unit :=
  w ← get_world;
  if decide (id socket ∈ connected w)
  then
    perform (EDisconnect (id socket));;
    onclose (id socket) "server namespace disconnect"
  else mret tt.

Definition closure (b : listener_body) (socket : Socket) (session : qval) : listener :=
  {| body := b; env_socket := socket; env_session := session |}.

(** The 'connection' listener, lines 7-67.  [await socket.join(session)]
    resumes before any further transport event is processed. *)
Definition connection_handler (socket : Socket) : M unit :=
  let session := handshake_query_session socket in
  if q_falsy session || q_strict_eq session "undefined" || q_strict_eq session ""
  then
    io_to_emit (id socket) "CONNECTION_FAILURE"
      [AVal (VObj [("msg", VStr "Missing session argument")])];;
    socket_disconnect socket
  else
    socket_join socket session;;
    L_info ("socked " +:+ id socket +:+ " joined to session " +:+ q_to_string session);;
    sz ← rooms_get_size session;
    discard ("undefined" +:+ " room size=" +:+ pretty sz);;
    socket_on socket "PGPS_READY" (closure on_PGPS_READY socket session);;
    socket_on socket "PGPS_READY_RECEIVED" (closure on_PGPS_READY_RECEIVED socket session);;
    socket_on socket "RUN_NFT_MINT" (closure on_RUN_NFT_MINT socket session);;
    socket_on socket "RUN_NFT_MINT_RECEIVED" (closure on_RUN_NFT_MINT_RECEIVED socket session);;
    socket_on socket "MINTING_NFT" (closure on_MINTING_NFT socket session);;
    socket_on socket "MINTING_NFT_RECEIVED" (closure on_MINTING_NFT_RECEIVED socket session);;
    socket_on socket "disconnect" (closure on_disconnect socket session);;
    socket_on socket "timeout" (closure on_timeout socket session);;
    socket_on socket "close" (closure on_close socket session);;
    io_to_emit (id socket) "CONNECTION_SUCCESS"
      [AVal (VObj [("msg", VStr "Connection successful")])].

(** ** What the transport does to the relay *)

(** A client connects: the new socket is connected, socket.io puts it in
    the room named by its own id and fires 'connection'. *)
Definition on_connect (socket : Socket) : M unit :=
  w ← get_world;
  set_connected ({[id socket]} ∪ connected w);;
  join_each (id socket) [id socket];;
  connection_handler socket.

(** [socket.dispatch]: an event of a client is emitted on the socket object
    with [data] and [callback] as its first two arguments; an event that
    arrives for a socket that has closed is dropped. *)
Definition on_event (sid ev : string) (data callback : arg) : M unit :=
  w ← get_world;
  if decide (sid ∈ connected w)
  then fire sid ev data callback
  else mret tt.

(** [socket.onevent]: an event packet carries the data the client sent and,
    when the client asked for an acknowledgment, an id; socket.io appends
    the acknowledgment function for that id to the data, and the listener
    is called with the resulting list.  The listeners of creation.ts name
    the first two positions [data] and [callback]; a position past the end
    of the list is [undefined]. *)
Definition packet_args (payload : list value) (ack : option nat) : list arg :=
  ((AVal <$> payload) ++ match ack with Some k => [AFun k] | None => [] end)%list.

Definition on_packet (sid ev : string) (payload : list value) (ack : option nat) : M unit :=
  let a := packet_args payload ack in
  on_event sid ev (default (AVal VUndefined) (a !! 0%nat))
                  (default (AVal VUndefined) (a !! 1%nat)).

(** The transport of [sid] ends. *)
Definition on_transport_close (sid : string) : M unit :=
  onclose sid "transport close".

(** Why a connection ends, as far as socket.io tells the socket: whatever
    happens to the transport, the socket is closed through [_onclose] with a
    reason, and 'disconnect' is the one event emitted on it. *)
Inductive end_reason : Type :=
  | End_client_disconnect     (* the client called disconnect() *)
  | End_ping_timeout          (* no pong within the ping timeout *)
  | End_transport_close       (* the connection was closed *)
  | End_transport_error.      (* the connection met an error *)

Definition reason_text (r : end_reason) : string :=
  match r with
  | End_client_disconnect => "client namespace disconnect"
  | End_ping_timeout => "ping timeout"
  | End_transport_close => "transport close"
  | End_transport_error => "transport error"
  end.

Definition on_transport_end (sid : string) (r : end_reason) : M unit :=
  onclose sid (reason_text r).

(** The three events the lifecycle listeners of lines 51-62 wait for.
    'disconnect' is emitted by socket.io when the connection ends, whatever
    the reason, after the socket has left its rooms.  socket.io emits no
    'timeout' and no 'close' on a socket: those two listeners run only when
    the client sends an event of that name, which ends nothing. *)
Inductive teardown : Type := Sig_disconnect | Sig_timeout | Sig_close.

Definition signal_event (t : teardown) : string :=
  match t with
  | Sig_disconnect => "disconnect"
  | Sig_timeout => "timeout"
  | Sig_close => "close"
  end.

Definition lifecycle_frame (t : teardown) : string :=
  match t with
  | Sig_disconnect => "USER_DISCONNECT"
  | Sig_timeout => "USER_TIMEOUT"
  | Sig_close => "USER_CLOSE"
  end.

Definition console_line (t : teardown) : string :=
  match t with
  | Sig_disconnect => "user disconnected"
  | Sig_timeout => "user timeout"
  | Sig_close => "user close"
  end.

(** One of the three events reaches socket [sid]: the connection ends, or
    the client sends 'timeout' or 'close' with [data] and [callback]. *)
Definition on_teardown (sid : string) (t : teardown) (data callback : arg) : M unit :=
  match t with
  | Sig_disconnect => on_transport_close sid
  | _ => on_event sid (signal_event t) data callback
  end.



(** ** Observations on a world *)

Definition emissions (t : list effect) : list emission :=
  omap (λ e, match e with EEmit m => Some m | _ => None end) t.

Definition ack_calls (t : list effect) : list (nat * value) :=
  omap (λ e, match e with EAck k v => Some (k, v) | _ => None end) t.

Definition info_lines (t : list effect) : list string :=
  omap (λ e, match e with EInfo s => Some s | _ => None end) t.

Definition frame : Type := string * list arg.
Definition frame_of (m : emission) : frame := (tag m, args m).

(** The frames written to the transport of socket [y], in order. *)
Definition received (w : world) (y : string) : list frame :=
  frame_of <$> filter (λ m, y ∈ targets m) (emissions (trace w)).

(** The names of those frames. *)
Definition tags_received (w : world) (y : string) : list string :=
  (λ f : frame, f.1) <$> received w y.

(** socket.io treats a trailing function argument of [emit] as a request
    for acknowledgment. *)
Definition solicits_ack (m : emission) : bool :=
  match last (args m) with
  | Some (AFun _) => true
  | _ => false
  end.

Definition application_tags : list string :=
  ["PGPS_READY"; "PGPS_READY_RECEIVED"; "RUN_NFT_MINT";
   "RUN_NFT_MINT_RECEIVED"; "MINTING_NFT"; "MINTING_NFT_RECEIVED"].

(** The listener table the connection handler leaves on a socket it lets in. *)
Definition handlers (socket : Socket) : list (string * listener) :=
  let session := handshake_query_session socket in
  [("PGPS_READY", closure on_PGPS_READY socket session);
   ("PGPS_READY_RECEIVED", closure on_PGPS_READY_RECEIVED socket session);
   ("RUN_NFT_MINT", closure on_RUN_NFT_MINT socket session);
   ("RUN_NFT_MINT_RECEIVED", closure on_RUN_NFT_MINT_RECEIVED socket session);
   ("MINTING_NFT", closure on_MINTING_NFT socket session);
   ("MINTING_NFT_RECEIVED", closure on_MINTING_NFT_RECEIVED socket session);
   ("disconnect", closure on_disconnect socket session);
   ("timeout", closure on_timeout socket session);
   ("close", closure on_close socket session)].

(** [socket] carries the listeners of the connection handler. *)
Definition has_handlers (w : world) (socket : Socket) : Prop :=
  listeners w !! id socket = Some (handlers socket).

(** [socket] was let in by the connection handler and has not closed. *)
Definition registered (w : world) (socket : Socket) : Prop :=
  has_handlers w socket ∧ id socket ∈ connected w.

(** [socket] went through admission with session [s], is still connected
    and is in its room. *)
Definition joined (w : world) (socket : Socket) (s : string) : Prop :=
  handshake_query_session socket = QStr s ∧
  registered w socket ∧
  id socket ∈ members (rooms w) s.

(** A socket object that has just been created: nothing listens on it yet. *)
Definition fresh (w : world) (socket : Socket) : Prop :=
  listeners w !! id socket = None.

Definition rejected (q : qval) : Prop :=
  q = QAbsent ∨ q = QStr "" ∨ q = QStr "undefined".

Definition failure_payload : value := VObj [("msg", VStr "Missing session argument")].
Definition success_payload : value := VObj [("msg", VStr "Connection successful")].

(** Sample worlds: X and Y admitted to session "abc123". *)
Definition sock_X : Socket := mkSocket "X" (QStr "abc123").
Definition sock_Y : Socket := mkSocket "Y" (QStr "abc123").
Definition after {A} (m : M A) (w : world) : world := (m w).2.
Definition world_X : world := after (on_connect sock_X) empty_world.
Definition world_XY : world := after (on_connect sock_Y) world_X.
Definition adapter_down (w : world) : world :=
  {| rooms := rooms w; listeners := listeners w; trace := trace w; adapter_up := false;
     connected := connected w |}.

(** ** Vocabulary for the statements *)

(** What calling the callback adds to the trace. *)
Definition ack_effects (callback : arg) : list effect :=
  match callback with
  | AFun k => [EAck k ok_true]
  | AVal _ => []
  end.

(** The emission an application listener of [socket] makes for [data]. *)
Definition relayed (socket : Socket) (w : world) (ev : string) (data : value) : emission :=
  {| targets := members (rooms w) (q_to_string (handshake_query_session socket)) ∖ {[id socket]};
     tag := ev; args := [AVal data] |}.

(** The effects of one lifecycle listener. *)
Definition lifecycle_effects (socket : Socket) (session : qval) (w : world) (t : teardown)
  : list effect :=
  [EConsole (console_line t);
   EEmit {| targets := members (rooms w) (q_to_string session) ∖ {[id socket]};
            tag := lifecycle_frame t; args := [AVal sentinel] |}].

(** The world after one of the three events, up to what the listener
    does: only 'disconnect' is preceded by the socket leaving its rooms and
    closing. *)
Definition leave (t : teardown) (sid : string) (w : world) : world :=
  match t with
  | Sig_disconnect =>
      with_connected (connected w ∖ {[sid]}) (with_rooms (adapter_del_all sid (rooms w)) w)
  | _ => w
  end.


(** What a packet makes the application listener acknowledge: the callback
    is called when it follows exactly one datum. *)
Definition packet_acks (payload : list value) (ack : option nat) : list (nat * value) :=
  match payload, ack with
  | [_], Some k => [(k, ok_true)]
  | _, _ => []
  end.

(** The CONNECTION_FAILURE emission, resolved after the socket has entered
    the room of its own id. *)
Definition failure_emission (socket : Socket) (w : world) : emission :=
  {| targets := members (adapter_add (id socket) (id socket) (rooms w)) (id socket) ∖ ∅;
     tag := "CONNECTION_FAILURE"; args := [AVal failure_payload] |}.

(** The CONNECTION_SUCCESS emission over room table [rs]. *)
Definition success_emission (socket : Socket) (rs : gmap string (gset string)) : emission :=
  {| targets := members rs (id socket) ∖ ∅;
     tag := "CONNECTION_SUCCESS"; args := [AVal success_payload] |}.

(** The room table once [socket] has entered its own room and room [s]. *)
Definition joined_rooms (socket : Socket) (s : string) (w : world) : gmap string (gset string) :=
  adapter_add (id socket) s (adapter_add (id socket) (id socket) (rooms w)).

(** A run that ends without an exception. *)
Definition returns_normally {A} (r : outcome A * world) : Prop := ∃ a, r.1 = Ok a.

(** Further sample worlds: the client of X sends 'timeout', then X's
    connection ends; and X's connection ends by a ping timeout. *)
Definition no_data : arg := AVal VUndefined.
Definition no_callback : arg := AVal VUndefined.
Definition world_X_timed_out : world :=
  after (on_transport_end "X" End_ping_timeout) world_XY.

(** ** Sequences of client events *)

(** The names on which the connection handler registers a listener. *)
Definition listened_events : list string :=
  (application_tags ++ ["disconnect"; "timeout"; "close"])%list.





(** The room table after socket [sid] has joined the rooms [rs] in order. *)
Definition rooms_after_joins (sid : string) (rs : list string)
    (table : gmap string (gset string)) : gmap string (gset string) :=
  foldl (λ t r, adapter_add sid r t) table rs.

(** A connection followed by the end of its transport. *)
Definition connect_then_close (socket : Socket) : M unit :=
  on_connect socket;;
  on_transport_close (id socket).

(** ** src/api/services/user.ts *)

Module UserService.

(** The result of mongoose-paginate's [paginate], as far as it is read. *)
Module Mongoose.
Record PaginateResult (T : Type) : Type := mkPaginateResult {
  docs : list T;
  totalDocs : Z;
  limit : Z;
  page : Z;
  totalPages : Z;
  hasPrevPage : bool;
  hasNextPage : bool
}.
Arguments mkPaginateResult {T}.
Arguments docs {T}.
Arguments totalDocs {T}.
Arguments hasPrevPage {T}.
Arguments hasNextPage {T}.
End Mongoose.

Record CustomResponse (T : Type) : Type := mkCustomResponse {
  totalCount : Z;
  data : list T;
  hasNextPage : bool;
  hasPreviousPage : bool
}.
Arguments mkCustomResponse {T}.
Arguments totalCount {T}.
Arguments data {T}.
Arguments hasNextPage {T}.
Arguments hasPreviousPage {T}.

Record Account : Type := mkAccount {
  capsAmount : string;
  tiimeAmount : string
}.

(** The indexer's answer; every level may be missing. *)
Record AccountEntities : Type := mkAccountEntities {
  nodes : option (list Account)
}.
Record AccountResponse : Type := mkAccountResponse {
  accountEntities : option AccountEntities
}.

Section Methods.
Context {IUser : Type}.

(** [UserModel.paginate(query, {page, limit})]: the database is outside
    the model; the call answers with a page or throws. *)
Variable UserModel_paginate :
  list (string * value) → Z → Z → outcome (Mongoose.PaginateResult IUser).

(** [process.env.INDEXER_URL] *)
Variable env_INDEXER_URL : option string.

(** [QueriesBuilder.capsBalanceFromId], defined in gqlQueriesBuilder. *)
Variable capsBalanceFromId : string → string.

(** [request(url, query)] of graphql-request: answers with the parsed
    body ([None] when it is null) or throws. *)
Variable request : string → string → outcome (option AccountResponse).

Definition indexerUrl : string :=
  match env_INDEXER_URL with
  | Some u => if String.eqb u "" then "https://indexer.chaos.ternoa.com" else u
  | None => "https://indexer.chaos.ternoa.com"
  end.

Definition getAllUsers (page limit : option Z) : outcome (CustomResponse IUser) :=
  let page := default 1%Z page in
  let limit := default 15%Z limit in
  match UserModel_paginate [("artist", VBool true)] page limit with
  | Ok res =>
      let response :=
        {| totalCount := Mongoose.totalDocs res;
           data := Mongoose.docs res;
           hasNextPage := Mongoose.hasNextPage res;
           hasPreviousPage := Mongoose.hasNextPage res |} in
      Ok response
  | Throw err => Throw (Error "Users can't be fetched")
  end.

Definition getAccountBalance (id : string) : outcome Account :=
  let query := capsBalanceFromId id in
  match request indexerUrl query with
  | Ok result =>
      match result with
      | Some r =>
          match accountEntities r with
          | Some entities =>
              match nodes entities with
              | Some ns =>
                  match ns with
                  | first :: _ => Ok first
                  | [] => Ok {| capsAmount := "0"; tiimeAmount := "0" |}
                  end
              | None => Ok {| capsAmount := "0"; tiimeAmount := "0" |}
              end
          | None => Ok {| capsAmount := "0"; tiimeAmount := "0" |}
          end
      | None => Ok {| capsAmount := "0"; tiimeAmount := "0" |}
      end
  | Throw err => Throw (Error "Couldn't get caps balance")
  end.

(** [result.accountEntities.nodes], [None] when any level is missing. *)
Definition nodes_of (result : option AccountResponse) : option (list Account) :=
  r ← result; entities ← accountEntities r; nodes entities.

End Methods.

(** A sample page and a sample indexer for concrete runs. *)
Definition sample_page : Mongoose.PaginateResult string :=
  {| Mongoose.docs := ["alice"; "bob"]; Mongoose.totalDocs := 5;
     Mongoose.limit := 2; Mongoose.page := 1; Mongoose.totalPages := 3;
     Mongoose.hasPrevPage := false; Mongoose.hasNextPage := true |}.
Definition sample_paginate (q : list (string * value)) (page limit : Z)
  : outcome (Mongoose.PaginateResult string) := Ok sample_page.

Definition sample_query (id : string) : string := "query " +:+ id.
Definition sample_request (url query : string) : outcome (option AccountResponse) :=
  if String.eqb query "query empty"
  then Ok (Some {| accountEntities := Some {| nodes := Some [] |} |})
  else if String.eqb query "query none"
  then Ok (Some {| accountEntities := None |})
  else Ok (Some {| accountEntities :=
                     Some {| nodes := Some [ {| capsAmount := "42"; tiimeAmount := "7" |};
                                             {| capsAmount := "1"; tiimeAmount := "1" |} ] |} |}).

End UserService.

(** ** src/api/services/user.ts: [findUser] and the methods that write

    The database, the NFT service and the helpers of utils are outside the
    repository files at hand: each call to them is answered by a parameter,
    and every write the service asks for is recorded in order. *)

Module UserOps.

(** An element of [user.likedNFTs]. *)
Record Like : Type := mkLike {
  serieId : string;
  nftId : string
}.

(** An NFT as [NFTService.getNFT] answers it, as far as it is read
    ([nft.id], [nft.serieId]). *)
Record NFT : Type := mkNFT {
  nft_id : string;
  nft_serieId : string
}.

(** A user document, as far as the methods below read or change it.
    [likedNFTs] is [None] when the document has no such array. *)
Record UserDoc : Type := mkUserDoc {
  walletId : string;
  likedNFTs : option (list Like);
  twitterName : value;
  twitterVerified : value
}.

(** The update document [updateUser] passes to [findOneAndUpdate]. *)
Record UserUpdate : Type := mkUserUpdate {
  u_name : value;
  u_customUrl : value;
  u_bio : value;
  u_twitterName : value;
  u_personalUrl : value;
  u_picture : value;
  u_banner : value;
  u_twitterVerified : value
}.

(** A document of the user-view collection. *)
Record UserView : Type := mkUserView {
  viewed : string;
  viewer : option string;
  viewerIp : option string;
  date : Z
}.

(** The second argument of [updateUser]: [walletData.data] and
    [walletData.signedMessage]. *)
Record WalletData : Type := mkWalletData {
  wd_data : value;
  wd_signedMessage : value
}.

(** What [findUser] hands back: the cached document as it is, or a copy of
    the fetched one with [viewsCount] added. *)
Inductive FoundUser : Type :=
  | FromCache (user : UserDoc)
  | Fetched (user : UserDoc) (viewsCount : Z).

(** A write the service asks the database for. *)
Inductive write : Type :=
  | WSaveUser (user : UserDoc)                          (* user.save() *)
  | WUpdateUser (walletId : string) (upd : UserUpdate)  (* findOneAndUpdate *)
  | WSaveView (view : UserView).                        (* newView.save() *)

(** The state the service carries: the module-level [usersCache] and the
    writes requested so far.  Entries of the cache expire with time; within
    one call the cache is as the call finds it. *)
Record svc : Type := mkSvc {
  usersCache : gmap string UserDoc;
  writes : list write
}.

Definition Svc (A : Type) : Type := svc → outcome A * svc.

#[global] Instance Svc_ret : MRet Svc := λ A a s, (Ok a, s).
#[global] Instance Svc_bind : MBind Svc := λ A B f m s,
  match m s with
  | (Ok a, s') => f a s'
  | (Throw e, s') => (Throw e, s')
  end.

Definition raise {A} (e : exn) : Svc A := λ s, (Throw e, s).

(** [try { m } catch (err) { h err }] *)
Definition try_catch {A} (m : Svc A) (h : exn → Svc A) : Svc A := λ s,
  match m s with
  | (Ok a, s') => (Ok a, s')
  | (Throw e, s') => h e s'
  end.

(** The answer of a call that is outside the model. *)
Definition answer {A} (o : outcome A) : Svc A := λ s, (o, s).

(** A write: recorded, then answered from outside. *)
Definition request_write {A} (wr : write) (o : outcome A) : Svc A := λ s,
  (o, {| usersCache := usersCache s; writes := (writes s ++ [wr])%list |}).

Definition cache_get (k : string) : Svc (option UserDoc) := λ s,
  (Ok (usersCache s !! k), s).
Definition cache_has (k : string) : Svc bool := λ s,
  (Ok (bool_decide (is_Some (usersCache s !! k))), s).
Definition cache_set (k : string) (u : UserDoc) : Svc unit := λ s,
  (Ok tt, {| usersCache := <[k := u]> (usersCache s); writes := writes s |}).

(** [String(err)], as in [err + "..."]: the name of the error, then its
    message when it has one.  [AdapterError] and [UnhandledError] belong
    to the relay, are never raised here, and are printed like an error
    without message. *)
Definition exn_to_string (e : exn) : string :=
  match e with
  | TypeError msg => if String.eqb msg "" then "TypeError" else "TypeError: " +:+ msg
  | Error msg => if String.eqb msg "" then "Error" else "Error: " +:+ msg
  | AdapterError | UnhandledError _ => "Error"
  end.

(** [a === b] on data.  Two objects or arrays are the same only when they
    are one object; a value parsed from a request and a value read from the
    database never are. *)
Definition strict_eq (a b : value) : bool :=
  match a, b with
  | VUndefined, VUndefined => true
  | VNull, VNull => true
  | VBool x, VBool y => Bool.eqb x y
  | VNum x, VNum y => (x =? y)%Z
  | VStr x, VStr y => String.eqb x y
  | _, _ => false
  end.

(** [o.k]: reading a property of [null] or [undefined] throws; numbers,
    strings, booleans and arrays have no property of the names used here. *)
Fixpoint assoc (k : string) (fields : list (string * value)) : value :=
  match fields with
  | [] => VUndefined
  | (k', v) :: rest => if String.eqb k' k then v else assoc k rest
  end.

Definition get_prop (o : value) (k : string) : outcome value :=
  match o with
  | VUndefined => Throw (TypeError "Cannot read property of undefined")
  | VNull => Throw (TypeError "Cannot read property of null")
  | VObj fields => Ok (assoc k fields)
  | _ => Ok VUndefined
  end.

Definition with_likes (user : UserDoc) (likes : option (list Like)) : UserDoc :=
  {| walletId := walletId user; likedNFTs := likes;
     twitterName := twitterName user; twitterVerified := twitterVerified user |}.

(** [Math.max.apply(null, ds)]: [None] stands for [-Infinity], the maximum
    of no number. *)
Definition max_date (ds : list Z) : option Z :=
  match ds with
  | [] => None
  | d :: rest => Some (foldl Z.max d rest)
  end.

Section Methods.

(** [UserModel.findOne({ walletId })] *)
Variable UserModel_findOne : string → outcome (option UserDoc).
(** [NFTService.getNFT(nftId)], defined in the NFT service. *)
Variable NFTService_getNFT : string → outcome (option NFT).
(** What [user.save()] answers for the document in its new state. *)
Variable user_save : UserDoc → outcome unit.
(** [UserModel.findOneAndUpdate({ walletId }, update, { new: true })] *)
Variable UserModel_findOneAndUpdate : string → UserUpdate → outcome (option UserDoc).
(** [JSON.parse] *)
Variable JSON_parse : value → outcome value.
(** [isValidSignature], [validateUrl], [validateTwitter] of utils. *)
Variable isValidSignature : value → value → value → outcome bool.
Variable validateUrl : string → bool.
Variable validateTwitter : string → bool.
(** [UserViewModel.find({ viewed: walletId })] and [newView.save()] *)
Variable UserViewModel_find : string → outcome (list UserView).
Variable view_save : UserView → outcome unit.
(** [TIME_BETWEEN_SAME_USER_VIEWS] of utils. *)
Variable TIME_BETWEEN_SAME_USER_VIEWS : Z.

(** [const key = {serieId: nft.serieId, nftId: nft.id}] *)
Definition like_key (nft : option NFT) : Svc Like :=
  match nft with
  | Some n => mret {| serieId := nft_serieId n; nftId := nft_id n |}
  | None => raise (TypeError "Cannot read property 'serieId' of null")
  end.

(** Lines 197-218. *)
Definition likeNft (walletId nftId : string) : Svc UserDoc :=
  try_catch
    (user ← answer (UserModel_findOne walletId);
     nft ← answer (NFTService_getNFT nftId);
     key ← like_key nft;
     match user, nft with
     | Some user, Some nft =>
         user' ←
           match likedNFTs user with
           | Some likes =>
               (if String.eqb (nft_serieId nft) "0"
                then
                  if bool_decide (UserOps.nftId key ∈ UserOps.nftId <$> likes)
                  then raise (Error "NFT already liked") else mret tt
                else
                  if bool_decide (serieId key ∈ serieId <$> likes)
                  then raise (Error "NFT already liked") else mret tt);;
               mret (with_likes user (Some (likes ++ [key])%list))
           | None => mret (with_likes user (Some [key]))
           end;
         request_write (WSaveUser user') (user_save user');;
         mret user'
     | _, _ => raise (Error "")
     end)
    (λ err, raise (Error "Couldn't like NFT")).

(** Lines 226-244. *)
Definition unlikeNft (walletId nftId : string) : Svc UserDoc :=
  try_catch
    (user ← answer (UserModel_findOne walletId);
     nft ← answer (NFTService_getNFT nftId);
     key ← like_key nft;
     match user, nft with
     | Some user, Some nft =>
         match likedNFTs user with
         | Some likes =>
             user' ←
               (if String.eqb (nft_serieId nft) "0"
                then
                  if negb (bool_decide (UserOps.nftId key ∈ UserOps.nftId <$> likes))
                  then raise (Error "NFT already not liked")
                  else mret (with_likes user
                               (Some (filter (λ x, UserOps.nftId x ≠ UserOps.nftId key) likes)))
                else
                  if negb (bool_decide (serieId key ∈ serieId <$> likes))
                  then raise (Error "NFT already not liked")
                  else mret (with_likes user
                               (Some (filter (λ x, serieId x ≠ serieId key) likes))));
             request_write (WSaveUser user') (user_save user');;
             mret user'
         | None => raise (Error "")
         end
     | _, _ => raise (Error "")
     end)
    (λ err, raise (Error "Couldn't unlike NFT")).

(** [typeof name !== "string" || name.length === 0] *)
Definition bad_name (name : value) : bool :=
  match name with
  | VStr s => String.eqb s ""
  | _ => true
  end.

(** [x && (typeof x !== "string" || !valid(x))] *)
Definition bad_optional (valid : string → bool) (x : value) : bool :=
  truthy_value x &&
  match x with
  | VStr s => negb (valid s)
  | _ => true
  end.

(** [bio && typeof bio !== "string"] *)
Definition bad_bio (bio : value) : bool :=
  truthy_value bio && negb (String.eqb (typeof_value bio) "string").

(** Lines 159-189. *)
Definition updateUser (walletId : string) (walletData : WalletData) : Svc (option UserDoc) :=
  try_catch
    (data ← answer (JSON_parse (wd_data walletData));
     try_catch
       (signer ← answer (get_prop data "walletId");
        valid ← answer (isValidSignature (wd_data walletData)
                          (wd_signedMessage walletData) signer);
        if negb valid then raise (Error "Invalid signature") else mret tt)
       (λ err, raise (Error "Invalid signature"));;
     name ← answer (get_prop data "name");
     customUrl ← answer (get_prop data "customUrl");
     bio ← answer (get_prop data "bio");
     twitterName ← answer (get_prop data "twitterName");
     personalUrl ← answer (get_prop data "personalUrl");
     picture ← answer (get_prop data "picture");
     banner ← answer (get_prop data "banner");
     let isError :=
       bad_name name
       || bad_optional validateUrl customUrl
       || bad_bio bio
       || bad_optional validateTwitter twitterName
       || bad_optional validateUrl personalUrl
       || bad_optional validateUrl picture
       || bad_optional validateUrl banner in
     (if isError then raise (Error "Couldn't update user") else mret tt);;
     userOld ← answer (UserModel_findOne walletId);
     old ← match userOld with
           | Some u => mret u
           | None => raise (TypeError "Cannot read property 'twitterVerified' of null")
           end;
     let twitterVerified :=
       if negb (strict_eq (UserOps.twitterName old) twitterName)
       then VBool false else UserOps.twitterVerified old in
     let upd := {| u_name := name; u_customUrl := customUrl; u_bio := bio;
                   u_twitterName := twitterName; u_personalUrl := personalUrl;
                   u_picture := picture; u_banner := banner;
                   u_twitterVerified := twitterVerified |} in
     request_write (WUpdateUser walletId upd) (UserModel_findOneAndUpdate walletId upd))
    (λ err, raise err).

(** Lines 84-115; [date] is the reading of [+new Date()]. *)
Definition findUser (walletId : string) (incViews : bool)
    (viewerWalletId viewerIp : option string) (ignoreCache : bool) (date : Z)
  : Svc FoundUser :=
  cached ← (if negb ignoreCache && negb incViews
            then cache_get walletId else mret None);
  match cached with
  | Some user => mret (FromCache user)
  | None =>
      try_catch
        (found ← answer (UserModel_findOne walletId);
         match found with
         | None => raise (Error "")
         | Some user =>
             viewsCount ←
               (if incViews
                then
                  views ← answer (UserViewModel_find walletId);
                  match viewerIp with
                  | Some ip =>
                      if negb (String.eqb ip "") &&
                         ((length views =? 0)%nat ||
                          match max_date (UserOps.date <$>
                                   filter (λ x, UserOps.viewerIp x = Some ip) views) with
                          | None => true
                          | Some last => (TIME_BETWEEN_SAME_USER_VIEWS <? date - last)%Z
                          end)
                      then
                        let newView := {| viewed := walletId; viewer := viewerWalletId;
                                          UserOps.viewerIp := Some ip; UserOps.date := date |} in
                        request_write (WSaveView newView) (view_save newView);;
                        mret (Z.of_nat (length views) + 1)%Z
                      else mret (Z.of_nat (length views))
                  | None => mret (Z.of_nat (length views))
                  end
                else mret 0%Z);
             has ← cache_has walletId;
             (if negb has then cache_set walletId user else mret tt);;
             mret (Fetched user viewsCount)
         end)
        (λ err, raise (Error (exn_to_string err +:+ "User can't be found")))
  end.

End Methods.

(** Whether the like rule of [likeNft] finds the NFT among the likes: by
    NFT id for series "0", by series otherwise. *)
Definition liked (likes : list Like) (nft : NFT) : Prop :=
  if String.eqb (nft_serieId nft) "0"
  then nft_id nft ∈ nftId <$> likes
  else nft_serieId nft ∈ serieId <$> likes.

(** The list [unlikeNft] keeps. *)
Definition without (likes : list Like) (nft : NFT) : list Like :=
  if String.eqb (nft_serieId nft) "0"
  then filter (λ x, nftId x ≠ nft_id nft) likes
  else filter (λ x, serieId x ≠ nft_serieId nft) likes.

Definition key_of (nft : NFT) : Like :=
  {| serieId := nft_serieId nft; nftId := nft_id nft |}.

Definition empty_svc : svc := {| usersCache := ∅; writes := [] |}.

(** At most one like per series other than "0", and at most one like per
    NFT of series "0". *)
Definition one_like_each (likes : list Like) : Prop :=
  NoDup (serieId <$> filter (λ x, serieId x ≠ "0") likes) ∧
  NoDup (nftId <$> filter (λ x, serieId x = "0") likes).

(** Sample data for concrete runs: a user with two likes, a database that
    holds one document, a handful of NFTs. *)
Definition alice : UserDoc :=
  {| walletId := "5Alice";
     likedNFTs := Some [ {| serieId := "0"; nftId := "10" |};
                         {| serieId := "7"; nftId := "21" |} ];
     twitterName := VStr "alice"; twitterVerified := VBool true |}.

Definition holding (u : UserDoc) (w : string) : outcome (option UserDoc) :=
  if String.eqb w (walletId u) then Ok (Some u) else Ok None.

Definition sample_getNFT (n : string) : outcome (option NFT) :=
  if String.eqb n "10" then Ok (Some {| nft_id := "10"; nft_serieId := "0" |})
  else if String.eqb n "21" then Ok (Some {| nft_id := "21"; nft_serieId := "7" |})
  else if String.eqb n "22" then Ok (Some {| nft_id := "22"; nft_serieId := "7" |})
  else if String.eqb n "30" then Ok (Some {| nft_id := "30"; nft_serieId := "0" |})
  else Ok None.

Definition save_ok (u : UserDoc) : outcome unit := Ok tt.

(** The seven checks of [updateUser] on the fields of the parsed data. *)
Definition profile_error (validateUrl validateTwitter : string → bool)
    (fields : list (string * value)) : bool :=
  bad_name (assoc "name" fields)
  || bad_optional validateUrl (assoc "customUrl" fields)
  || bad_bio (assoc "bio" fields)
  || bad_optional validateTwitter (assoc "twitterName" fields)
  || bad_optional validateUrl (assoc "personalUrl" fields)
  || bad_optional validateUrl (assoc "picture" fields)
  || bad_optional validateUrl (assoc "banner" fields).

(** The update [updateUser] requests for parsed fields and the stored
    document [old]. *)
Definition update_of (fields : list (string * value)) (old : UserDoc) : UserUpdate :=
  {| u_name := assoc "name" fields;
     u_customUrl := assoc "customUrl" fields;
     u_bio := assoc "bio" fields;
     u_twitterName := assoc "twitterName" fields;
     u_personalUrl := assoc "personalUrl" fields;
     u_picture := assoc "picture" fields;
     u_banner := assoc "banner" fields;
     u_twitterVerified :=
       if strict_eq (twitterName old) (assoc "twitterName" fields)
       then twitterVerified old else VBool false |}.

(** The view [findUser] saves. *)
Definition new_view (walletId : string) (viewerWalletId : option string)
    (ip : string) (date : Z) : UserView :=
  {| viewed := walletId; viewer := viewerWalletId; viewerIp := Some ip; date := date |}.

(** Every earlier view from address [ip] is more than [gap] old at [now]. *)
Definition no_recent_view (gap now : Z) (ip : string) (views : list UserView) : Prop :=
  Forall (λ v, viewerIp v = Some ip → (date v + gap < now)%Z) views.

(** The cache after a fetch of [u] for key [w]: an entry that is there is
    kept, a missing one is filled. *)
Definition cache_after_fetch (w : string) (u : UserDoc) (s : svc) : gmap string UserDoc :=
  match usersCache s !! w with
  | Some _ => usersCache s
  | None => <[w := u]> (usersCache s)
  end.

(** A method that leaves [usersCache] alone. *)
Definition keeps_cache {A} (m : Svc A) : Prop :=
  ∀ s, usersCache (m s).2 = usersCache s.

(** More sample data: a signed profile update, validators, views. *)
Definition sample_fields : list (string * value) :=
  [("walletId", VStr "5Bob"); ("name", VStr "Alice"); ("twitterName", VStr "@alice2");
   ("bio", VStr "hello")].
Definition sample_walletData : WalletData :=
  {| wd_data := VStr "payload"; wd_signedMessage := VStr "0xsig" |}.
Definition sample_parse (v : value) : outcome value := Ok (VObj sample_fields).
Definition nameless_parse (v : value) : outcome value :=
  Ok (VObj [("walletId", VStr "5Bob"); ("name", VStr "")]).
Definition accept_signature (d m signer : value) : outcome bool := Ok true.
Definition reject_signature (d m signer : value) : outcome bool := Ok false.
Definition accept_string (s : string) : bool := true.
Definition sample_update (w : string) (upd : UserUpdate) : outcome (option UserDoc) :=
  Ok (Some alice).
Definition sample_views : list UserView :=
  [ {| viewed := "5Alice"; viewer := None; viewerIp := Some "10.0.0.1"; date := 1000 |};
    {| viewed := "5Alice"; viewer := None; viewerIp := Some "10.0.0.2"; date := 5000 |} ].
Definition sample_find_views (w : string) : outcome (list UserView) := Ok sample_views.
Definition view_save_ok (v : UserView) : outcome unit := Ok tt.
Definition cache_with_alice : svc :=
  {| usersCache := {[ "5Alice" := alice ]}; writes := [] |}.
Definition nobody (w : string) : outcome (option UserDoc) := Ok None.

End UserOps.

(** * Properties of the relay *)

Arguments members : simpl never.

(** ** The trace and the room table *)

Lemma log_effects_log es1 es2 w :
  log_effects es2 (log_effects es1 w) = log_effects (es1 ++ es2)%list w.
Proof. unfold log_effects; simpl. by rewrite <- app_assoc. Qed.

Lemma emissions_app t1 t2 : emissions (t1 ++ t2)%list = (emissions t1 ++ emissions t2)%list.
Proof. unfold emissions. apply omap_app. Qed.

Lemma received_log es w y :
  received (log_effects es w) y =
  (received w y ++ (frame_of <$> filter (λ m, y ∈ targets m) (emissions es)))%list.
Proof.
  unfold received, log_effects; simpl.
  by rewrite emissions_app, filter_app, fmap_app.
Qed.

Lemma members_add sid room rs r :
  members (adapter_add sid room rs) r =
  if decide (room = r) then {[sid]} ∪ members rs room else members rs r.
Proof.
  unfold members, adapter_add. rewrite lookup_insert. by case_decide.
Qed.

Lemma members_del_all sid rs r :
  members (adapter_del_all sid rs) r = members rs r ∖ {[sid]}.
Proof.
  unfold members, adapter_del_all. rewrite lookup_omap.
  destruct (rs !! r) as [ms|]; simpl.
  - destruct (decide (sid ∈ ms)) as [Hin|Hout]; simpl.
    + destruct (decide (ms ∖ {[sid]} = ∅)) as [He|Hne]; simpl; [by rewrite He|done].
    + apply set_eq; intros z; rewrite elem_of_difference, elem_of_singleton.
      split; [intros Hz; split; [done|by intros ->]|by intros [? _]].
  - apply set_eq; intros z; rewrite elem_of_difference.
    split; [by intros ?%not_elem_of_empty|by intros [?%not_elem_of_empty _]].
Qed.

(** ** Running the primitives and the listeners *)

Lemma broadcast_up room except ev v w :
  adapter_up w = true →
  broadcast room except ev [AVal v] w =
    (Ok tt, log_effects [EEmit {| targets := members (rooms w) room ∖ except;
                                   tag := ev; args := [AVal v] |}] w).
Proof. intros Hup. unfold broadcast, mbind, M_bind, get_world. cbn [last]. by rewrite Hup. Qed.

Lemma broadcast_down room except ev v w :
  adapter_up w = false → broadcast room except ev [AVal v] w = (Throw AdapterError, w).
Proof. intros Hup. unfold broadcast, mbind, M_bind, get_world. cbn [last]. by rewrite Hup. Qed.

Lemma broadcast_callback room except ev k w :
  broadcast room except ev [AFun k] w =
    (Throw (Error "Callbacks are not supported when broadcasting"), w).
Proof. reflexivity. Qed.

Lemma valid_callback_truthy callback :
  truthy (js_and callback (AVal (VBool (String.eqb (typeof callback) "function")))) =
  match callback with AFun _ => true | AVal _ => false end.
Proof.
  destruct callback as [v|k]; [|reflexivity].
  unfold js_and; simpl.
  destruct (truthy_value v) eqn:E; [|simpl; exact E].
  destruct v; reflexivity.
Qed.

Lemma app_listener_run socket session w ev data callback :
  adapter_up w = true →
  (socket_to_emit socket (q_to_string session) ev [AVal data];;
   if truthy (js_and callback (AVal (VBool (String.eqb (typeof callback) "function"))))
   then call callback ok_true else mret tt) w =
  (Ok tt, log_effects
            (EEmit {| targets := members (rooms w) (q_to_string session) ∖ {[id socket]};
                      tag := ev; args := [AVal data] |} :: ack_effects callback) w).
Proof.
  intros Hup. rewrite valid_callback_truthy.
  unfold socket_to_emit, mbind, M_bind. rewrite broadcast_up by done.
  destruct callback as [v|k]; simpl.
  - reflexivity.
  - unfold call, perform. by rewrite log_effects_log.
Qed.

Lemma app_listener_callback_as_data socket session w ev k callback :
  (socket_to_emit socket (q_to_string session) ev [AFun k];;
   if truthy (js_and callback (AVal (VBool (String.eqb (typeof callback) "function"))))
   then call callback ok_true else mret tt) w =
  (Throw (Error "Callbacks are not supported when broadcasting"), w).
Proof. reflexivity. Qed.

Lemma bind_ok {A B} (m : M A) (f : A → M B) w a w' :
  m w = (Ok a, w') → (m ≫= f) w = f a w'.
Proof. intros H. unfold mbind, M_bind. by rewrite H. Qed.

Lemma bind_throw {A B} (m : M A) (f : A → M B) w e w' :
  m w = (Throw e, w') → (m ≫= f) w = (Throw e, w').
Proof. intros H. unfold mbind, M_bind. by rewrite H. Qed.

Lemma lifecycle_listener_run socket session w t :
  adapter_up w = true →
  (console_log (console_line t);;
   socket_to_emit socket (q_to_string session) (lifecycle_frame t) [AVal sentinel]) w =
  (Ok tt, log_effects (lifecycle_effects socket session w t) w).
Proof.
  intros Hup. unfold console_log, perform.
  erewrite bind_ok by reflexivity.
  unfold socket_to_emit. rewrite broadcast_up by done.
  by rewrite log_effects_log.
Qed.

Ltac run_listeners Hup :=
  repeat first
    [ erewrite bind_ok by (apply app_listener_run; exact Hup)
    | erewrite bind_ok by (apply (lifecycle_listener_run _ _ _ Sig_disconnect); exact Hup)
    | erewrite bind_ok by (apply (lifecycle_listener_run _ _ _ Sig_timeout); exact Hup)
    | erewrite bind_ok by (apply (lifecycle_listener_run _ _ _ Sig_close); exact Hup)
    | erewrite bind_ok by reflexivity ].

(** An event reaches the listeners of a socket that is connected, and is
    dropped otherwise. *)
Lemma on_event_connected w sid ev data callback :
  sid ∈ connected w → on_event sid ev data callback w = fire sid ev data callback w.
Proof.
  intros Hc. unfold on_event. erewrite bind_ok by reflexivity. by rewrite decide_True.
Qed.

Lemma on_event_closed w sid ev data callback :
  sid ∉ connected w → on_event sid ev data callback w = (Ok tt, w).
Proof.
  intros Hc. unfold on_event. erewrite bind_ok by reflexivity. by rewrite decide_False.
Qed.


Lemma fire_application_run w socket ev data callback :
  has_handlers w socket → adapter_up w = true → ev ∈ application_tags →
  fire (id socket) ev (AVal data) callback w =
    (Ok tt, log_effects (EEmit (relayed socket w ev data) :: ack_effects callback) w).
Proof.
  intros Hreg Hup Hev.
  unfold fire. erewrite bind_ok by reflexivity.
  rewrite Hreg. simpl default.
  unfold application_tags in Hev.
  repeat (apply elem_of_cons in Hev as [-> | Hev]); [..|by apply elem_of_nil in Hev];
    cbn -[members socket_to_emit call js_and typeof truthy];
    run_listeners Hup; reflexivity.
Qed.

Lemma relay_run w socket ev data callback :
  registered w socket → adapter_up w = true → ev ∈ application_tags →
  on_event (id socket) ev (AVal data) callback w =
    (Ok tt, log_effects (EEmit (relayed socket w ev data) :: ack_effects callback) w).
Proof.
  intros [Hreg Hc] Hup Hev.
  rewrite on_event_connected by done. by apply fire_application_run.
Qed.

(** A callback in the data position: the broadcast refuses it, and the
    listener stops there. *)
Lemma relay_callback_as_data_run w socket ev k callback :
  registered w socket → ev ∈ application_tags →
  on_event (id socket) ev (AFun k) callback w =
    (Throw (Error "Callbacks are not supported when broadcasting"), w).
Proof.
  intros [Hreg Hc] Hev.
  rewrite on_event_connected by done.
  unfold fire. erewrite bind_ok by reflexivity.
  rewrite Hreg. simpl default.
  unfold application_tags in Hev.
  repeat (apply elem_of_cons in Hev as [-> | Hev]); [..|by apply elem_of_nil in Hev];
    cbn -[members socket_to_emit call js_and typeof truthy];
    repeat first
      [ erewrite bind_throw by apply app_listener_callback_as_data
      | erewrite bind_ok by reflexivity ];
    reflexivity.
Qed.

Lemma teardown_event_run w socket t data callback :
  has_handlers w socket → adapter_up w = true →
  fire (id socket) (signal_event t) data callback w =
    (Ok tt, log_effects (lifecycle_effects socket (handshake_query_session socket) w t) w).
Proof.
  intros Hreg Hup.
  unfold fire. erewrite bind_ok by reflexivity.
  rewrite Hreg. simpl default.
  destruct t;
    cbn -[members socket_to_emit console_log];
    run_listeners Hup; reflexivity.
Qed.

Lemma difference_twice (X : gset string) (x : string) : X ∖ {[x]} ∖ {[x]} = X ∖ {[x]}.
Proof. apply set_eq; intros z. rewrite !elem_of_difference. tauto. Qed.

(** The end of a connection that is open, whatever the reason. *)
Lemma onclose_run w socket reason :
  registered w socket → adapter_up w = true →
  onclose (id socket) reason w =
    (Ok tt, log_effects
              (lifecycle_effects socket (handshake_query_session socket) w Sig_disconnect)
              (leave Sig_disconnect (id socket) w)).
Proof.
  intros [Hreg Hc] Hup.
  destruct w as [rs ls tr up cn].
  unfold has_handlers in Hreg. cbn [listeners adapter_up connected] in Hreg, Hup, Hc.
  unfold onclose.
  erewrite bind_ok by reflexivity. cbn [connected]. rewrite decide_True by done.
  erewrite bind_ok by reflexivity.
  erewrite bind_ok by reflexivity.
  unfold with_connected, with_rooms; cbn [rooms listeners trace adapter_up connected].
  rewrite (teardown_event_run _ socket Sig_disconnect) by done.
  unfold lifecycle_effects, leave, with_connected, with_rooms, log_effects;
    cbn [rooms listeners trace adapter_up connected].
  by rewrite members_del_all, difference_twice.
Qed.

Lemma teardown_run w socket t data callback :
  registered w socket → adapter_up w = true →
  on_teardown (id socket) t data callback w =
    (Ok tt, log_effects
              (lifecycle_effects socket (handshake_query_session socket) w t)
              (leave t (id socket) w)).
Proof.
  intros Hreg Hup.
  destruct t.
  - by apply onclose_run.
  - unfold on_teardown. rewrite on_event_connected by apply Hreg.
    apply (teardown_event_run _ _ Sig_timeout); [apply Hreg|done].
  - unfold on_teardown. rewrite on_event_connected by apply Hreg.
    apply (teardown_event_run _ _ Sig_close); [apply Hreg|done].
Qed.

(** ** Running the connection handler *)

Lemma fire_fresh w sid ev data callback :
  listeners w !! sid = None → ev ≠ "error" → fire sid ev data callback w = (Ok tt, w).
Proof.
  intros Hnone Hev. unfold fire. erewrite bind_ok by reflexivity. rewrite Hnone.
  apply String.eqb_neq in Hev. by rewrite Hev.
Qed.

Lemma q_rejected_test q :
  q_falsy q || q_strict_eq q "undefined" || q_strict_eq q "" = true ↔ rejected q.
Proof.
  unfold rejected. destruct q as [|s|l]; simpl.
  - split; [by left|done].
  - rewrite !orb_true_iff, !String.eqb_eq.
    split; [intros [[->| ->]| ->]; auto|intros [?|[?|?]]; simplify_eq; auto].
  - split; [done|by intros [?|[?|?]]].
Qed.

Ltac normal_world :=
  unfold log_effects, with_rooms, with_listeners, with_connected;
  cbn [rooms listeners trace adapter_up connected].

Lemma connect_refused_run w socket :
  rejected (handshake_query_session socket) → adapter_up w = true → fresh w socket →
  on_connect socket w =
    (Ok tt,
     {| rooms := adapter_del_all (id socket) (adapter_add (id socket) (id socket) (rooms w));
        listeners := listeners w;
        trace := (trace w ++ [EJoin (id socket) (id socket);
                              EEmit (failure_emission socket w);
                              EDisconnect (id socket)])%list;
        adapter_up := adapter_up w;
        connected := connected w ∖ {[id socket]} |}).
Proof.
  intros Hrej Hup Hfresh. apply q_rejected_test in Hrej.
  destruct w as [rs ls tr up cn]. unfold fresh in Hfresh.
  cbn [adapter_up listeners] in Hup, Hfresh. subst up.
  unfold failure_emission. cbn [rooms listeners trace adapter_up connected].
  unfold on_connect.
  erewrite bind_ok by reflexivity.
  erewrite bind_ok by reflexivity. normal_world.
  unfold join_each.
  erewrite bind_ok by reflexivity. normal_world.
  unfold connection_handler. rewrite Hrej.
  unfold io_to_emit. erewrite bind_ok by (by apply broadcast_up). normal_world.
  unfold socket_disconnect.
  erewrite bind_ok by reflexivity. cbn [connected].
  rewrite decide_True by set_solver.
  erewrite bind_ok by reflexivity. normal_world.
  unfold onclose.
  erewrite bind_ok by reflexivity. cbn [connected].
  rewrite decide_True by set_solver.
  erewrite bind_ok by reflexivity. normal_world.
  erewrite bind_ok by reflexivity. normal_world.
  rewrite fire_fresh by done.
  rewrite <- !app_assoc. cbn [app].
  do 2 f_equal.
  apply set_eq; intros z.
  rewrite !elem_of_difference, elem_of_union, elem_of_singleton. tauto.
Qed.

Lemma socket_on_run socket ev l ls0 L w :
  listeners w = <[id socket := L]> ls0 →
  socket_on socket ev l w = (Ok tt, with_listeners (<[id socket := (L ++ [(ev, l)])%list]> ls0) w).
Proof.
  intros Hl. unfold socket_on. erewrite bind_ok by reflexivity.
  unfold set_listeners. by rewrite Hl, lookup_insert_eq, insert_insert_eq.
Qed.

Lemma socket_on_first socket ev l w :
  socket_on socket ev l w =
    (Ok tt, with_listeners
              (<[id socket := (default [] (listeners w !! id socket) ++ [(ev, l)])%list]>
                 (listeners w)) w).
Proof. reflexivity. Qed.

Lemma rooms_get_size_run w s ms :
  rooms w !! s = Some ms → rooms_get_size (QStr s) w = (Ok (size ms), w).
Proof.
  intros Hs. unfold rooms_get_size. erewrite bind_ok by reflexivity. by rewrite Hs.
Qed.

Lemma connect_accepted_run w socket s :
  handshake_query_session socket = QStr s → s ≠ "" → s ≠ "undefined" →
  adapter_up w = true →
  on_connect socket w =
    (Ok tt,
     {| rooms := joined_rooms socket s w;
        listeners := <[id socket := (default [] (listeners w !! id socket) ++ handlers socket)%list]>
                       (listeners w);
        trace := (trace w ++
                  [EJoin (id socket) (id socket);
                   EJoin (id socket) s;
                   EInfo ("socked " +:+ id socket +:+ " joined to session " +:+ s);
                   EEmit (success_emission socket (joined_rooms socket s w))])%list;
        adapter_up := adapter_up w;
        connected := {[id socket]} ∪ connected w |}).
Proof.
  intros Hq Hs1 Hs2 Hup.
  destruct w as [rs ls tr up cn]. cbn [adapter_up] in Hup. subst up.
  unfold joined_rooms, success_emission. cbn [rooms listeners trace adapter_up connected].
  unfold on_connect.
  erewrite bind_ok by reflexivity.
  erewrite bind_ok by reflexivity. normal_world.
  unfold connection_handler. rewrite Hq.
  cbn [q_falsy q_strict_eq q_to_string socket_join join_each].
  apply String.eqb_neq in Hs1, Hs2. rewrite Hs1, Hs2. cbn [orb].
  erewrite bind_ok by reflexivity. normal_world.
  erewrite bind_ok by reflexivity. normal_world.
  unfold L_info. erewrite bind_ok by reflexivity. normal_world.
  erewrite bind_ok
    by (apply rooms_get_size_run; cbn [rooms]; unfold adapter_add; apply lookup_insert_eq).
  erewrite bind_ok by reflexivity.
  erewrite bind_ok by apply socket_on_first. normal_world.
  do 8 (erewrite bind_ok by (apply socket_on_run; reflexivity); normal_world).
  unfold io_to_emit. rewrite broadcast_up by reflexivity. normal_world.
  unfold handlers. rewrite Hq, <- !app_assoc. reflexivity.
Qed.

(** ** The relay of application frames *)


Lemma ack_calls_relay m callback :
  ack_calls (EEmit m :: ack_effects callback) =
  match callback with AFun k => [(k, ok_true)] | AVal _ => [] end.
Proof. by destruct callback. Qed.

Lemma ack_calls_app t1 t2 : ack_calls (t1 ++ t2)%list = (ack_calls t1 ++ ack_calls t2)%list.
Proof. unfold ack_calls. apply omap_app. Qed.

Lemma received_one es m w y :
  emissions es = [m] →
  received (log_effects es w) y =
  (received w y ++ if decide (y ∈ targets m) then [frame_of m] else [])%list.
Proof.
  intros Hes. rewrite received_log, Hes. f_equal.
  rewrite filter_cons, filter_nil. by case_decide.
Qed.


Ltac decide_by_running := refine (bool_decide_unpack _ _); vm_compute; exact I.

Lemma world_XY_joined_X : joined world_XY sock_X "abc123".
Proof.
  split; [reflexivity|]. split; [|decide_by_running].
  split; [vm_compute; reflexivity|decide_by_running].
Defined.


(** ** Acknowledgments *)

(** At the listener, with a datum in the data position: the run ends
    normally whatever the callback position holds, and the callback is
    called with [{ok: true}] exactly when it is a function. *)
Lemma ack_of_frame_with_datum w socket ev data callback :
  registered w socket → adapter_up w = true → ev ∈ application_tags →
  let w' := after (on_event (id socket) ev (AVal data) callback) w in
  (on_event (id socket) ev (AVal data) callback w).1 = Ok tt ∧
  ack_calls (trace w') =
    (ack_calls (trace w) ++
     match callback with AFun k => [(k, ok_true)] | AVal _ => [] end)%list ∧
  (typeof callback = "function" ↔ ∃ k, callback = AFun k).
Proof.
  intros Hreg Hup Hev. unfold after.
  rewrite relay_run by done. simpl.
  split; [done|]. split; [by rewrite ack_calls_app, ack_calls_relay|].
  split.
  - destruct callback as [v|k]; [by destruct v|by exists k].
  - by intros [k ->].
Qed.

(** C3 (counterexample). X, joined with Y to "abc123", sends PGPS_READY with
    an acknowledgment callback and no datum.  socket.io appends the
    callback to the (empty) data, so the listener receives it as [data] and
    [undefined] as [callback]: the callback the sender supplied is never
    called, and the broadcast throws on the function it is asked to send. *)
Lemma callback_without_datum_is_not_acknowledged :
  joined world_XY sock_X "abc123" ∧
  packet_args [] (Some 0%nat) = [AFun 0] ∧
  on_packet "X" "PGPS_READY" [] (Some 0%nat) world_XY =
    (Throw (Error "Callbacks are not supported when broadcasting"), world_XY) ∧
  ack_calls (trace (after (on_packet "X" "PGPS_READY" [] (Some 0%nat)) world_XY)) = [] ∧
  ¬ returns_normally (on_packet "X" "PGPS_READY" [] (Some 0%nat) world_XY).
Proof.
  split; [exact world_XY_joined_X|]. split; [reflexivity|].
  assert (Hrun : on_packet "X" "PGPS_READY" [] (Some 0%nat) world_XY =
                 (Throw (Error "Callbacks are not supported when broadcasting"), world_XY)).
  { apply (relay_callback_as_data_run world_XY sock_X "PGPS_READY" 0 (AVal VUndefined)).
    - apply world_XY_joined_X.
    - apply list_elem_of_here. }
  split; [exact Hrun|]. unfold after. rewrite Hrun.
  split; [vm_compute; reflexivity|].
  by intros [a Ha].
Qed.

(** C3 (amended). For a frame of an application tag received from a joined
    connection, the acknowledgment callback is called with [{ok: true}]
    exactly when the frame carries one datum followed by a callback.  A
    frame without callback, or with further data before the callback, is
    relayed without acknowledgment and without error.  A frame with a
    callback and no datum puts the callback in the data position: it is
    never called, nothing is relayed, and the listener throws. *)
Theorem ack_iff_callback_follows_one_datum w socket s ev payload ack :
  joined w socket s → adapter_up w = true → ev ∈ application_tags →
  let r := on_packet (id socket) ev payload ack w in
  r.1 = match payload, ack with
        | [], Some _ => Throw (Error "Callbacks are not supported when broadcasting")
        | _, _ => Ok tt
        end ∧
  ack_calls (trace r.2) = (ack_calls (trace w) ++ packet_acks payload ack)%list ∧
  (packet_acks payload ack = [] ∨
   ∃ d k, payload = [d] ∧ ack = Some k ∧ packet_acks payload ack = [(k, ok_true)]) ∧
  (payload = [] → is_Some ack → r.2 = w).
Proof.
  intros (Hq & Hreg & Hin) Hup Hev r.
  destruct payload as [|d [|d' rest]], ack as [k|]; subst r; unfold on_packet, packet_args;
    cbn [fmap list_fmap app lookup list_lookup default packet_acks]; unfold Datatypes.id.
  - rewrite relay_callback_as_data_run by done. cbn [fst snd].
    rewrite app_nil_r. repeat split; auto.
  - destruct (ack_of_frame_with_datum w socket ev VUndefined (AVal VUndefined) Hreg Hup Hev)
      as (Hok & Hacks & _).
    repeat split; auto. by intros _ [? ?].
  - destruct (ack_of_frame_with_datum w socket ev d (AFun k) Hreg Hup Hev)
      as (Hok & Hacks & _).
    repeat split; [done|done| |done]. right. by exists d, k.
  - destruct (ack_of_frame_with_datum w socket ev d (AVal VUndefined) Hreg Hup Hev)
      as (Hok & Hacks & _).
    repeat split; auto. done.
  - destruct (ack_of_frame_with_datum w socket ev d (AVal d') Hreg Hup Hev)
      as (Hok & Hacks & _).
    repeat split; auto. done.
  - destruct (ack_of_frame_with_datum w socket ev d (AVal d') Hreg Hup Hev)
      as (Hok & Hacks & _).
    repeat split; auto. done.
Qed.

Lemma ack_iff_callback_follows_one_datum_witness :
  ack_calls (trace (after (on_packet "X" "MINTING_NFT" [VNull] (Some 4%nat)) world_XY)) =
    [(4%nat, ok_true)] ∧
  (on_packet "X" "MINTING_NFT" [VNull] None world_XY).1 = Ok tt ∧
  ack_calls (trace (after (on_packet "X" "MINTING_NFT" [VNull; VStr "cb"] (Some 4%nat)) world_XY)) = [] ∧
  (on_packet "X" "MINTING_NFT" [] (Some 4%nat) world_XY).1 =
    Throw (Error "Callbacks are not supported when broadcasting").
Proof.
  assert (Hev : "MINTING_NFT" ∈ application_tags) by (vm_compute; set_solver).
  split; [|split; [|split]].
  - exact (proj1 (proj2 (ack_iff_callback_follows_one_datum world_XY sock_X "abc123"
             "MINTING_NFT" [VNull] (Some 4%nat) world_XY_joined_X eq_refl Hev))).
  - exact (proj1 (ack_iff_callback_follows_one_datum world_XY sock_X "abc123"
             "MINTING_NFT" [VNull] None world_XY_joined_X eq_refl Hev)).
  - exact (proj1 (proj2 (ack_iff_callback_follows_one_datum world_XY sock_X "abc123"
             "MINTING_NFT" [VNull; VStr "cb"] (Some 4%nat) world_XY_joined_X eq_refl Hev))).
  - exact (proj1 (ack_iff_callback_follows_one_datum world_XY sock_X "abc123"
             "MINTING_NFT" [] (Some 4%nat) world_XY_joined_X eq_refl Hev)).
Defined.

(** ** Lifecycle frames *)

Lemma emissions_lifecycle socket session w t :
  emissions (lifecycle_effects socket session w t) =
  [ {| targets := members (rooms w) (q_to_string session) ∖ {[id socket]};
       tag := lifecycle_frame t; args := [AVal sentinel] |} ].
Proof. reflexivity. Qed.

Lemma received_leave t sid w y : received (leave t sid w) y = received w y.
Proof. by destruct t. Qed.

(** C5 (the code differs).  When the connection of a joined socket ends,
    whether the client disconnected, the ping timed out, or the transport
    was closed or failed, socket.io emits 'disconnect' on the socket and
    nothing else.  The listener of lines 51-54 then emits exactly one frame,
    USER_DISCONNECT with the payload 1 and no trailing callback, to the
    other members of the room; no acknowledgment callback is called, and
    the socket has left every room and is closed.  The listeners of lines
    55-62 do not run: no USER_TIMEOUT and no USER_CLOSE frame is sent for a
    connection that timed out or was closed. *)
Theorem transport_end_emits_user_disconnect w socket s r :
  joined w socket s → adapter_up w = true →
  let w' := after (on_transport_end (id socket) r) w in
  (on_transport_end (id socket) r w).1 = Ok tt ∧
  (∃ m, emissions (trace w') = (emissions (trace w) ++ [m])%list ∧
        targets m = members (rooms w) s ∖ {[id socket]} ∧
        tag m = "USER_DISCONNECT" ∧
        args m = [AVal (VNum 1)] ∧
        solicits_ack m = false) ∧
  (∀ y, y ∈ members (rooms w) s → y ≠ id socket →
        received w' y = (received w y ++ [("USER_DISCONNECT", [AVal (VNum 1)])])%list) ∧
  received w' (id socket) = received w (id socket) ∧
  ack_calls (trace w') = ack_calls (trace w) ∧
  (∀ room, members (rooms w') room = members (rooms w) room ∖ {[id socket]}) ∧
  id socket ∉ connected w'.
Proof.
  intros (Hq & Hreg & Hin) Hup. unfold after, on_transport_end.
  rewrite onclose_run by done. rewrite Hq. cbn [fst snd q_to_string].
  split; [done|]. split; [|split; [|split; [|split; [|split]]]].
  - exists {| targets := members (rooms w) s ∖ {[id socket]};
              tag := "USER_DISCONNECT"; args := [AVal sentinel] |}.
    split; [|done].
    cbn [trace log_effects leave with_connected with_rooms].
    by rewrite emissions_app.
  - intros y Hy Hne.
    rewrite (received_one _ _ _ _ (emissions_lifecycle _ _ _ _)).
    cbn [targets q_to_string].
    rewrite (received_leave Sig_disconnect), decide_True; [done|].
    apply elem_of_difference. split; [done|]. by rewrite elem_of_singleton.
  - rewrite (received_one _ _ _ _ (emissions_lifecycle _ _ _ _)).
    cbn [targets q_to_string].
    rewrite (received_leave Sig_disconnect), decide_False; [by rewrite app_nil_r|].
    rewrite elem_of_difference, elem_of_singleton. by intros [_ ?].
  - cbn [trace log_effects leave with_connected with_rooms].
    rewrite ack_calls_app; simpl. by rewrite app_nil_r.
  - intros room. cbn [rooms log_effects leave with_connected with_rooms].
    apply members_del_all.
  - cbn [connected log_effects leave with_connected with_rooms].
    rewrite elem_of_difference, elem_of_singleton. by intros [_ ?].
Qed.

Lemma transport_end_emits_user_disconnect_witness :
  received world_X_timed_out "Y" =
    (received world_XY "Y" ++ [("USER_DISCONNECT", [AVal (VNum 1)])])%list ∧
  ("USER_TIMEOUT" ∉ tags_received world_X_timed_out "Y") ∧
  members (rooms world_X_timed_out) "abc123" = {["Y"]}.
Proof.
  pose proof (transport_end_emits_user_disconnect world_XY sock_X "abc123" End_ping_timeout
                world_XY_joined_X eq_refl) as (_ & _ & Hothers & _ & _ & Hrooms & _).
  split; [apply Hothers; [decide_by_running|discriminate]|].
  split; [decide_by_running|].
  unfold world_X_timed_out. rewrite Hrooms. vm_compute. reflexivity.
Defined.

(** ** Admission *)

(** C2. A connection attempt whose session parameter is absent, empty or the
    string "undefined" makes the handler emit one CONNECTION_FAILURE frame
    with the message "Missing session argument" to the room of the
    connecting socket, which holds that socket, and then disconnect it; the
    handler joins no room and registers no listener, and afterwards the
    socket is in no room while the membership of the others is unchanged. *)
Theorem missing_session_is_refused w socket :
  rejected (handshake_query_session socket) → adapter_up w = true → fresh w socket →
  ∃ w' m,
    on_connect socket w = (Ok tt, w') ∧
    trace w' = (trace w ++ [EJoin (id socket) (id socket); EEmit m;
                            EDisconnect (id socket)])%list ∧
    tag m = "CONNECTION_FAILURE" ∧
    args m = [AVal (VObj [("msg", VStr "Missing session argument")])] ∧
    "Missing session argument" ≠ "" ∧
    id socket ∈ targets m ∧
    received w' (id socket) =
      (received w (id socket) ++
       [("CONNECTION_FAILURE", [AVal (VObj [("msg", VStr "Missing session argument")])])])%list ∧
    (∀ r, members (rooms w') r = members (rooms w) r ∖ {[id socket]}) ∧
    listeners w' = listeners w.
Proof.
  intros Hrej Hup Hfresh.
  assert (Hown : id socket ∈ targets (failure_emission socket w)).
  { unfold failure_emission; simpl. rewrite members_add, decide_True by done.
    rewrite elem_of_difference, elem_of_union, elem_of_singleton.
    split; [by left|apply not_elem_of_empty]. }
  eexists _, (failure_emission socket w).
  split; [by apply connect_refused_run|]. simpl.
  split; [done|]. split; [done|]. split; [done|]. split; [done|]. split; [done|].
  split; [|split; [|done]].
  - unfold received; simpl.
    rewrite emissions_app, filter_app, fmap_app. f_equal.
    simpl. rewrite filter_cons, decide_True by done. by rewrite filter_nil.
  - intros r. rewrite members_del_all, members_add.
    case_decide as Hr; [subst r|done].
    apply set_eq; intros z.
    rewrite !elem_of_difference, elem_of_union, elem_of_singleton. tauto.
Qed.

Lemma missing_session_is_refused_witness :
  ∃ w', on_connect (mkSocket "Z" (QStr "")) world_XY = (Ok tt, w') ∧
        received w' "Z" =
          [("CONNECTION_FAILURE", [AVal (VObj [("msg", VStr "Missing session argument")])])] ∧
        members (rooms w') "Z" = ∅ ∧
        members (rooms w') "abc123" = {["X"; "Y"]}.
Proof.
  destruct (missing_session_is_refused world_XY (mkSocket "Z" (QStr ""))
              (or_intror (or_introl eq_refl)) eq_refl eq_refl)
    as (w' & m & Hrun & _ & _ & _ & _ & _ & Hrecv & Hrooms & _).
  exists w'. split; [exact Hrun|]. split; [exact Hrecv|].
  rewrite !Hrooms. split; vm_compute; reflexivity.
Defined.

Lemma own_room_after_joining socket s w :
  id socket ∈ members (joined_rooms socket s w) (id socket).
Proof.
  unfold joined_rooms. rewrite !members_add.
  case_decide; rewrite ?decide_True by done; rewrite ?elem_of_union, elem_of_singleton; auto.
Qed.

(** C6. A connection attempt whose session parameter is a string other than
    "" and "undefined" joins the room named by that string, and the handler
    then emits CONNECTION_SUCCESS with payload [{msg: "Connection
    successful"}] to the connecting socket; the nine listeners are
    registered in between. *)
Theorem valid_session_joins_room w socket s :
  handshake_query_session socket = QStr s → s ≠ "" → s ≠ "undefined" →
  adapter_up w = true →
  ∃ w' m,
    on_connect socket w = (Ok tt, w') ∧
    rooms w' = adapter_add (id socket) s (adapter_add (id socket) (id socket) (rooms w)) ∧
    id socket ∈ members (rooms w') s ∧
    trace w' = (trace w ++
                [EJoin (id socket) (id socket);
                 EJoin (id socket) s;
                 EInfo ("socked " +:+ id socket +:+ " joined to session " +:+ s);
                 EEmit m])%list ∧
    tag m = "CONNECTION_SUCCESS" ∧
    args m = [AVal (VObj [("msg", VStr "Connection successful")])] ∧
    id socket ∈ targets m ∧
    received w' (id socket) =
      (received w (id socket) ++
       [("CONNECTION_SUCCESS", [AVal (VObj [("msg", VStr "Connection successful")])])])%list ∧
    listeners w' !! id socket =
      Some (default [] (listeners w !! id socket) ++ handlers socket)%list.
Proof.
  intros Hq Hs1 Hs2 Hup.
  assert (Hroom : id socket ∈ members (joined_rooms socket s w) s).
  { unfold joined_rooms. rewrite members_add, decide_True by done.
    rewrite elem_of_union, elem_of_singleton. by left. }
  assert (Hown : id socket ∈ targets (success_emission socket (joined_rooms socket s w))).
  { unfold success_emission; simpl. rewrite elem_of_difference.
    split; [apply own_room_after_joining|apply not_elem_of_empty]. }
  exists {| rooms := joined_rooms socket s w;
            listeners := <[id socket := (default [] (listeners w !! id socket)
                                          ++ handlers socket)%list]> (listeners w);
            trace := (trace w ++
                      [EJoin (id socket) (id socket);
                       EJoin (id socket) s;
                       EInfo ("socked " +:+ id socket +:+ " joined to session " +:+ s);
                       EEmit (success_emission socket (joined_rooms socket s w))])%list;
            adapter_up := adapter_up w;
            connected := {[id socket]} ∪ connected w |},
         (success_emission socket (joined_rooms socket s w)).
  split; [by apply connect_accepted_run|]. cbn [rooms listeners trace adapter_up connected].
  split; [done|]. split; [done|]. split; [done|]. split; [done|]. split; [done|].
  split; [done|]. split.
  - unfold received; cbn [trace].
    rewrite emissions_app, filter_app, fmap_app. f_equal.
    cbn [emissions omap list_omap]. rewrite filter_cons, decide_True by done.
    by rewrite filter_nil.
  - apply lookup_insert_eq.
Qed.

(** A new socket that was let in is joined to its session. *)
Lemma connect_joined w socket s :
  handshake_query_session socket = QStr s → s ≠ "" → s ≠ "undefined" →
  adapter_up w = true → fresh w socket →
  joined (after (on_connect socket) w) socket s.
Proof.
  intros Hq Hs1 Hs2 Hup Hfresh. unfold after.
  rewrite (connect_accepted_run _ _ s) by done. cbn [snd].
  split; [done|]. split.
  - split.
    + unfold has_handlers; cbn [listeners]. unfold fresh in Hfresh.
      rewrite Hfresh. apply lookup_insert_eq.
    + cbn [connected]. apply elem_of_union. left. by apply elem_of_singleton.
  - cbn [rooms]. unfold joined_rooms. rewrite members_add, decide_True by done.
    rewrite elem_of_union, elem_of_singleton. by left.
Qed.

Lemma valid_session_joins_room_witness :
  ∃ w', on_connect sock_Y world_X = (Ok tt, w') ∧
        members (rooms w') "abc123" = {["X"; "Y"]} ∧
        received w' "Y" =
          [("CONNECTION_SUCCESS", [AVal (VObj [("msg", VStr "Connection successful")])])].
Proof.
  destruct (valid_session_joins_room world_X sock_Y "abc123" eq_refl
              ltac:(discriminate) ltac:(discriminate) eq_refl)
    as (w' & m & Hrun & Hrooms & _ & _ & _ & _ & _ & Hrecv & _).
  exists w'. split; [exact Hrun|]. split; [|exact Hrecv].
  rewrite Hrooms. vm_compute. reflexivity.
Defined.

(** A repeated [session] key reaches the handler as an array: the socket
    enters both rooms and the line is logged, then reading the size of
    [rooms.get(session)] throws, so no listener is registered and no
    CONNECTION_SUCCESS is sent. *)
Example repeated_session_key :
  (on_connect (mkSocket "Z" (QArr ["a"; "b"])) empty_world).1 =
    Throw (TypeError "Cannot read property 'size' of undefined") ∧
  info_lines (trace (after (on_connect (mkSocket "Z" (QArr ["a"; "b"]))) empty_world)) =
    ["socked Z joined to session a,b"] ∧
  emissions (trace (after (on_connect (mkSocket "Z" (QArr ["a"; "b"]))) empty_world)) = [].
Proof.
  repeat split; vm_compute; reflexivity.
Qed.

(** C7 (the code differs).  Admitting socket "X" to session "abc123" on an
    empty registry logs one line, "socked X joined to session abc123".  The
    room then has one member, but the size is appended to the value
    returned by [L.info], outside the call, and never reaches the log. *)
Theorem join_log_omits_room_size :
  info_lines (trace (after (on_connect sock_X) empty_world)) =
    ["socked X joined to session abc123"] ∧
  size (members (rooms (after (on_connect sock_X) empty_world)) "abc123") = 1 ∧
  info_lines (trace (after (on_connect sock_Y) world_X)) =
    ["socked X joined to session abc123"; "socked Y joined to session abc123"] ∧
  size (members (rooms (after (on_connect sock_Y) world_X)) "abc123") = 2.
Proof. repeat split; vm_compute; reflexivity. Qed.

(** The logged line never depends on the room table. *)
Lemma join_log_line w socket s :
  handshake_query_session socket = QStr s → s ≠ "" → s ≠ "undefined" →
  adapter_up w = true →
  info_lines (trace (after (on_connect socket) w)) =
    (info_lines (trace w) ++ ["socked " +:+ id socket +:+ " joined to session " +:+ s])%list.
Proof.
  intros Hq Hs1 Hs2 Hup. unfold after.
  rewrite (connect_accepted_run _ _ s) by done. simpl.
  unfold info_lines. by rewrite omap_app.
Qed.

(** ** Repeated teardown signals *)










(** ** A failing broadcast *)

Lemma app_listener_throws socket session w ev data callback :
  adapter_up w = false →
  (socket_to_emit socket (q_to_string session) ev [AVal data];;
   if truthy (js_and callback (AVal (VBool (String.eqb (typeof callback) "function"))))
   then call callback ok_true else mret tt) w = (Throw AdapterError, w).
Proof.
  intros Hdown. apply bind_throw. unfold socket_to_emit. by apply broadcast_down.
Qed.

(** C8, counterexample.  With the adapter unavailable, X sends RUN_NFT_MINT
    with a callback: the exception thrown by the broadcast leaves the
    listener uncaught. *)
Lemma relay_error_escapes_listener :
  (on_event "X" "RUN_NFT_MINT" (AVal (VObj [("nft", VNum 7)])) (AFun 0) (adapter_down world_XY)).1
    = Throw AdapterError ∧
  ¬ returns_normally
      (on_event "X" "RUN_NFT_MINT" (AVal (VObj [("nft", VNum 7)])) (AFun 0) (adapter_down world_XY)).
Proof.
  split; [vm_compute; reflexivity|].
  intros [a Ha]. vm_compute in Ha. discriminate.
Qed.

(** C8, as the code has it.  The application listeners contain no error
    handling: when the broadcast throws, the exception propagates out of the
    listener to its caller.  Nothing is emitted for that attempt and the
    sender's callback is not called. *)
Theorem relay_error_propagates w socket ev data callback :
  registered w socket → adapter_up w = false → ev ∈ application_tags →
  on_event (id socket) ev (AVal data) callback w = (Throw AdapterError, w) ∧
  emissions (trace (after (on_event (id socket) ev (AVal data) callback) w)) = emissions (trace w) ∧
  ack_calls (trace (after (on_event (id socket) ev (AVal data) callback) w)) = ack_calls (trace w).
Proof.
  intros [Hreg Hc] Hdown Hev.
  assert (Hrun : on_event (id socket) ev (AVal data) callback w = (Throw AdapterError, w)).
  { rewrite on_event_connected by done.
    unfold fire. erewrite bind_ok by reflexivity.
    rewrite Hreg. simpl default.
    unfold application_tags in Hev.
    repeat (apply elem_of_cons in Hev as [-> | Hev]); [..|by apply elem_of_nil in Hev];
      cbn -[members socket_to_emit call js_and typeof truthy];
      repeat (erewrite bind_ok by reflexivity);
      (erewrite bind_throw by (apply app_listener_throws; exact Hdown)); reflexivity. }
  unfold after. by rewrite Hrun.
Qed.

Lemma relay_error_propagates_witness :
  on_event "X" "PGPS_READY" (AVal VNull) (AFun 1) (adapter_down world_XY) =
    (Throw AdapterError, adapter_down world_XY).
Proof.
  apply (relay_error_propagates (adapter_down world_XY) sock_X "PGPS_READY" VNull (AFun 1)).
  - split; [vm_compute; reflexivity|decide_by_running].
  - reflexivity.
  - apply list_elem_of_here.
Defined.

(** * Properties of the user service *)

Module UserServiceFacts.
Import UserService.

Section Facts.
Context {IUser : Type}.
Variable UserModel_paginate :
  list (string * value) → Z → Z → outcome (Mongoose.PaginateResult IUser).
Variable env_INDEXER_URL : option string.
Variable capsBalanceFromId : string → string.
Variable request : string → string → outcome (option AccountResponse).

(** C9. Whenever [paginate] answers, [getAllUsers] answers too, and in
    its response [hasPreviousPage] equals [hasNextPage]: both are copied
    from the page's [hasNextPage], for every [page] and [limit]. *)
Theorem getAllUsers_hasPreviousPage_is_hasNextPage page limit res :
  UserModel_paginate [("artist", VBool true)] (default 1%Z page) (default 15%Z limit) = Ok res →
  ∃ response,
    getAllUsers UserModel_paginate page limit = Ok response ∧
    hasPreviousPage response = hasNextPage response ∧
    hasNextPage response = Mongoose.hasNextPage res ∧
    totalCount response = Mongoose.totalDocs res ∧
    data response = Mongoose.docs res.
Proof.
  intros Hres. unfold getAllUsers. rewrite Hres. eexists. split; [reflexivity|]. done.
Qed.

(** C10. When the indexer answers, [getAccountBalance] never throws: it
    returns the account with both amounts "0" when
    [accountEntities.nodes] is missing at any level or empty, and the
    first node when the list has one. *)
Theorem getAccountBalance_default_or_first id result :
  request (indexerUrl env_INDEXER_URL) (capsBalanceFromId id) = Ok result →
  ((nodes_of result = None ∨ nodes_of result = Some []) →
   getAccountBalance env_INDEXER_URL capsBalanceFromId request id =
     Ok {| capsAmount := "0"; tiimeAmount := "0" |}) ∧
  (∀ first rest, nodes_of result = Some (first :: rest) →
   getAccountBalance env_INDEXER_URL capsBalanceFromId request id = Ok first).
Proof.
  intros Hreq. unfold getAccountBalance. rewrite Hreq.
  destruct result as [r|]; [destruct r as [entities]|].
  - destruct entities as [e|]; [destruct e as [ns]|].
    + destruct ns as [[|n rest]|]; simpl; split;
        try (intros [?|?]); try (intros ? ? ?); simplify_eq; done.
    + simpl; split; [done|intros ? ? ?; simplify_eq].
  - simpl; split; [done|intros ? ? ?; simplify_eq].
Qed.
End Facts.

Lemma getAllUsers_hasPreviousPage_is_hasNextPage_witness :
  ∃ response,
    getAllUsers sample_paginate (Some 1%Z) None = Ok response ∧
    hasPreviousPage response = true ∧
    Mongoose.hasPrevPage sample_page = false.
Proof.
  destruct (getAllUsers_hasPreviousPage_is_hasNextPage sample_paginate (Some 1%Z) None
              sample_page eq_refl) as (response & Hrun & Hprev & Hnext & _).
  exists response. split; [exact Hrun|]. split; [|reflexivity].
  rewrite Hprev, Hnext. reflexivity.
Defined.

Lemma getAccountBalance_default_or_first_witness :
  getAccountBalance None sample_query sample_request "empty" =
    Ok {| capsAmount := "0"; tiimeAmount := "0" |} ∧
  getAccountBalance None sample_query sample_request "none" =
    Ok {| capsAmount := "0"; tiimeAmount := "0" |} ∧
  getAccountBalance None sample_query sample_request "5Grw" =
    Ok {| capsAmount := "42"; tiimeAmount := "7" |}.
Proof.
  split; [|split].
  - exact (proj1 (getAccountBalance_default_or_first None sample_query sample_request
                    "empty" _ eq_refl) (or_intror eq_refl)).
  - exact (proj1 (getAccountBalance_default_or_first None sample_query sample_request
                    "none" _ eq_refl) (or_introl eq_refl)).
  - exact (proj2 (getAccountBalance_default_or_first None sample_query sample_request
                    "5Grw" _ eq_refl) _ _ eq_refl).
Defined.
End UserServiceFacts.

(** * Further properties of the relay *)

(** ** Events nobody listens to *)

Lemma run_matching_none ev ls data callback w :
  Forall (λ p : string * listener, String.eqb p.1 ev = false) ls →
  run_matching ev ls data callback w = (Ok tt, w).
Proof.
  induction 1 as [|[name l] rest Hne _ IH]; [reflexivity|].
  cbn [run_matching]. cbn [fst] in Hne. rewrite Hne.
  erewrite bind_ok by reflexivity. exact IH.
Qed.

(** X1. An event whose name is none of the nine the handler listens to
    never reaches the code of creation.ts: nothing is emitted, nothing is
    logged and the callback, if any, is never called.  It is dropped
    silently unless its name is "error": creation.ts registers no 'error'
    listener, and emitting 'error' on a socket nobody listens to for errors
    throws, with the datum as the context of the exception. *)
Theorem unlistened_event_is_dropped_unless_error w socket ev data callback :
  registered w socket → ev ∉ listened_events →
  on_event (id socket) ev data callback w =
    (if String.eqb ev "error" then Throw (UnhandledError data) else Ok tt, w).
Proof.
  intros [Hreg Hc] Hev. rewrite on_event_connected by done.
  unfold fire. erewrite bind_ok by reflexivity.
  rewrite Hreg. cbn [default].
  replace (listens_to "error" (handlers socket)) with false by reflexivity.
  destruct (String.eqb ev "error"); [reflexivity|].
  cbn [andb]. apply run_matching_none.
  unfold listened_events, application_tags in Hev. cbn [app] in Hev.
  repeat (apply not_elem_of_cons in Hev as [? Hev]).
  unfold handlers.
  repeat (apply Forall_cons; split; [by apply String.eqb_neq|]).
  apply Forall_nil_2.
Qed.

Lemma unlistened_event_is_dropped_unless_error_witness :
  on_event "X" "PING" (AVal (VStr "hello")) (AFun 9) world_XY = (Ok tt, world_XY) ∧
  on_event "X" "error" (AVal (VStr "hello")) (AFun 9) world_XY =
    (Throw (UnhandledError (AVal (VStr "hello"))), world_XY).
Proof.
  split.
  - apply (unlistened_event_is_dropped_unless_error world_XY sock_X "PING"
             (AVal (VStr "hello")) (AFun 9)).
    + exact (proj1 (proj2 world_XY_joined_X)).
    + decide_by_running.
  - apply (unlistened_event_is_dropped_unless_error world_XY sock_X "error"
             (AVal (VStr "hello")) (AFun 9)).
    + exact (proj1 (proj2 world_XY_joined_X)).
    + decide_by_running.
Defined.

(** X2. A socket whose connection was refused has no listener and is
    closed: whatever it sends afterwards has no effect at all. *)
Theorem refused_socket_cannot_relay w socket ev data callback :
  rejected (handshake_query_session socket) → adapter_up w = true → fresh w socket →
  on_event (id socket) ev data callback (after (on_connect socket) w) =
    (Ok tt, after (on_connect socket) w).
Proof.
  intros Hrej Hup Hfresh. unfold after.
  rewrite connect_refused_run by done. cbn [snd].
  apply on_event_closed. cbn [connected].
  rewrite elem_of_difference, elem_of_singleton. by intros [_ ?].
Qed.

Lemma refused_socket_cannot_relay_witness :
  on_event "Z" "PGPS_READY" (AVal (VNum 1)) (AFun 0)
    (after (on_connect (mkSocket "Z" QAbsent)) world_XY) =
  (Ok tt, after (on_connect (mkSocket "Z" QAbsent)) world_XY).
Proof.
  apply (refused_socket_cannot_relay world_XY (mkSocket "Z" QAbsent) "PGPS_READY"
           (AVal (VNum 1)) (AFun 0)).
  - by left.
  - reflexivity.
  - reflexivity.
Defined.

(** ** Frames in sequence *)







(** ** Joining several rooms *)

Lemma join_each_run sid rs : ∀ w,
  join_each sid rs w =
    (Ok tt, {| rooms := rooms_after_joins sid rs (rooms w);
               listeners := listeners w;
               trace := (trace w ++ (EJoin sid <$> rs))%list;
               adapter_up := adapter_up w;
               connected := connected w |}).
Proof.
  induction rs as [|r rs IH]; intros [rs0 ls tr up cn].
  - cbn. by rewrite app_nil_r.
  - cbn [join_each].
    erewrite bind_ok by reflexivity.
    erewrite bind_ok by reflexivity. normal_world.
    erewrite bind_ok by reflexivity. normal_world.
    rewrite IH. cbn [rooms listeners trace adapter_up connected fmap list_fmap
                     rooms_after_joins foldl].
    by rewrite <- app_assoc.
Qed.

Lemma members_after_joins sid rs r : ∀ table,
  r ∈ rs ∨ sid ∈ members table r → sid ∈ members (rooms_after_joins sid rs table) r.
Proof.
  induction rs as [|r0 rs IH]; intros table Hor; cbn [rooms_after_joins foldl].
  - destruct Hor as [Hin|Hin]; [by apply elem_of_nil in Hin|done].
  - apply IH. rewrite members_add.
    destruct Hor as [Hin|Hin].
    + apply elem_of_cons in Hin as [->|Hin]; [|by left].
      right. rewrite decide_True by done.
      apply elem_of_union. left. by apply elem_of_singleton.
    + right. case_decide as Heq; [|done].
      subst r0. apply elem_of_union. by right.
Qed.

(** X5. When the [session] key is repeated in the query, the handler sees an
    array: the socket joins every listed room and the line is logged, then
    the read of [rooms.get(session).size] throws.  No listener is
    registered, neither CONNECTION_SUCCESS nor CONNECTION_FAILURE is
    emitted, and the socket is not disconnected: it stays in those rooms. *)
Theorem session_array_joins_but_is_not_served w socket l :
  handshake_query_session socket = QArr l →
  ∃ w',
    on_connect socket w =
      (Throw (TypeError "Cannot read property 'size' of undefined"), w') ∧
    rooms w' = rooms_after_joins (id socket) (id socket :: l) (rooms w) ∧
    (∀ r, r ∈ l → id socket ∈ members (rooms w') r) ∧
    listeners w' = listeners w ∧
    trace w' =
      (trace w ++ (EJoin (id socket) <$> (id socket :: l)) ++
       [EInfo ("socked " +:+ id socket +:+ " joined to session " +:+ join_with "," l)])%list ∧
    emissions (trace w') = emissions (trace w).
Proof.
  intros Hq. destruct w as [rs ls tr up cn].
  eexists. split.
  - unfold on_connect.
    erewrite bind_ok by reflexivity.
    erewrite bind_ok by reflexivity. normal_world.
    unfold connection_handler. rewrite Hq.
    cbn [q_falsy q_strict_eq orb socket_join q_to_string].
    erewrite bind_ok by apply join_each_run. normal_world.
    erewrite bind_ok by apply join_each_run. normal_world.
    unfold L_info. erewrite bind_ok by reflexivity. normal_world.
    apply bind_throw. reflexivity.
  - cbn [rooms listeners trace].
    split; [reflexivity|]. split.
    { intros r Hr. apply (members_after_joins _ l). by left. }
    split; [reflexivity|]. split.
    { rewrite !fmap_cons, <- !app_assoc. reflexivity. }
    rewrite !emissions_app.
    assert (Hj : ∀ rs', emissions (EJoin (id socket) <$> rs') = []).
    { induction rs' as [|? ? IH]; [done|exact IH]. }
    rewrite !Hj. cbn. by rewrite !app_nil_r.
Qed.

Lemma session_array_joins_but_is_not_served_witness :
  ∃ w', on_connect (mkSocket "Z" (QArr ["abc123"; "other"])) world_XY =
          (Throw (TypeError "Cannot read property 'size' of undefined"), w') ∧
        members (rooms w') "abc123" = {["X"; "Y"; "Z"]} ∧
        listeners w' !! "Z" = None ∧
        received w' "Z" = [].
Proof.
  destruct (session_array_joins_but_is_not_served world_XY
              (mkSocket "Z" (QArr ["abc123"; "other"])) ["abc123"; "other"] eq_refl)
    as (w' & Hrun & Hrooms & _ & Hls & _ & Hem).
  exists w'. split; [exact Hrun|]. split; [|split].
  - rewrite Hrooms. vm_compute. reflexivity.
  - rewrite Hls. reflexivity.
  - unfold received. rewrite Hem. vm_compute. reflexivity.
Defined.

(** ** A whole connection *)

(** X6. A new socket that connects with a valid session and whose transport
    then ends leaves the room table as it found it, minus itself; in
    between exactly two frames are emitted: CONNECTION_SUCCESS to its own
    room, and USER_DISCONNECT to the members of the session room that were
    there before it. *)
Theorem connect_then_close_restores_rooms w socket s :
  handshake_query_session socket = QStr s → s ≠ "" → s ≠ "undefined" →
  adapter_up w = true → fresh w socket →
  ∃ w',
    connect_then_close socket w = (Ok tt, w') ∧
    (∀ r, members (rooms w') r = members (rooms w) r ∖ {[id socket]}) ∧
    emissions (trace w') =
      (emissions (trace w) ++
       [success_emission socket (joined_rooms socket s w);
        {| targets := members (rooms w) s ∖ {[id socket]};
           tag := "USER_DISCONNECT"; args := [AVal (VNum 1)] |}])%list.
Proof.
  intros Hq Hs1 Hs2 Hup Hfresh.
  pose proof (connect_joined w socket s Hq Hs1 Hs2 Hup Hfresh) as (_ & Hreg & _).
  unfold after in Hreg.
  unfold connect_then_close.
  rewrite (connect_accepted_run _ _ s) in Hreg by done. cbn [snd] in Hreg.
  erewrite bind_ok by (by apply (connect_accepted_run _ _ s)).
  eexists. split.
  - apply (teardown_run _ socket Sig_disconnect no_data no_callback); [exact Hreg|exact Hup].
  - assert (Hsame : ∀ r, members (joined_rooms socket s w) r ∖ {[id socket]}
                         = members (rooms w) r ∖ {[id socket]}).
    { intros r. unfold joined_rooms. rewrite !members_add.
      apply set_eq; intros z.
      repeat case_decide; subst;
        rewrite ?elem_of_difference, ?elem_of_union, ?elem_of_singleton; tauto. }
    split.
    + intros r. cbn [leave log_effects with_connected with_rooms rooms].
      rewrite members_del_all. apply Hsame.
    + cbn [leave log_effects with_connected with_rooms rooms trace].
      rewrite emissions_app, emissions_lifecycle, emissions_app.
      cbn [rooms q_to_string lifecycle_frame]. rewrite Hq. cbn [q_to_string].
      rewrite Hsame, <- app_assoc. reflexivity.
Qed.

Lemma connect_then_close_restores_rooms_witness :
  ∃ w', connect_then_close sock_Y world_X = (Ok tt, w') ∧
        members (rooms w') "abc123" = {["X"]} ∧
        received w' "X" =
          (received world_X "X" ++ [("USER_DISCONNECT", [AVal (VNum 1)])])%list.
Proof.
  destruct (connect_then_close_restores_rooms world_X sock_Y "abc123" eq_refl
              ltac:(discriminate) ltac:(discriminate) eq_refl eq_refl)
    as (w' & Hrun & Hrooms & Hem).
  exists w'. split; [exact Hrun|]. split.
  - rewrite Hrooms. vm_compute. reflexivity.
  - unfold received. rewrite Hem. vm_compute. reflexivity.
Defined.

(** * Properties of the writing methods of the user service *)

Module UserOpsFacts.
Import UserOps.

Ltac svc_unfold :=
  unfold try_catch, mbind, Svc_bind, mret, Svc_ret, answer, raise, request_write,
         like_key, cache_get, cache_has, cache_set.

(** ** Lists of likes *)

Lemma filter_keeps_all {A} (P : A → Prop) `{∀ x, Decision (P x)} (l : list A) :
  Forall P l → filter P l = l.
Proof.
  induction 1 as [|x l Hx _ IH]; [done|].
  by rewrite filter_cons, decide_True, IH.
Qed.

Lemma not_in_fmap_forall {A} (f : A → string) (k : string) (l : list A) :
  k ∉ f <$> l → Forall (λ x, f x ≠ k) l.
Proof.
  intros Hk. apply Forall_forall. intros x Hx Heq.
  apply Hk. apply list_elem_of_fmap. by exists x.
Qed.

Lemma filter_removes_key {A} (f : A → string) (k : string) (l : list A) :
  k ∉ f <$> filter (λ x, f x ≠ k) l.
Proof.
  intros Hin. apply list_elem_of_fmap in Hin as (x & Hk & Hx).
  apply list_elem_of_filter in Hx as [Hne _]. by apply Hne.
Qed.

Lemma sublist_fmap_filter {A B} (f : A → B) (P : A → Prop) `{∀ x, Decision (P x)}
    (l1 l2 : list A) :
  sublist l1 l2 → sublist (f <$> filter P l1) (f <$> filter P l2).
Proof.
  induction 1 as [|x l1 l2 _ IH|x l1 l2 _ IH]; [done| |];
    rewrite ?filter_cons; case_decide; cbn;
    auto using sublist_skip, sublist_cons.
Qed.

#[global] Instance liked_dec likes nft : Decision (liked likes nft).
Proof. unfold liked. destruct (String.eqb _ _); apply _. Defined.

Lemma without_not_liked likes nft : ¬ liked (without likes nft) nft.
Proof.
  unfold liked, without. destruct (String.eqb _ _); apply filter_removes_key.
Qed.

Lemma without_after_like likes nft :
  ¬ liked likes nft → without (likes ++ [key_of nft]) nft = likes.
Proof.
  unfold liked, without. intros Hnot.
  destruct (String.eqb _ _); rewrite filter_app, filter_cons, filter_nil;
    cbn [key_of serieId nftId];
    rewrite decide_False by (by intros ?);
    rewrite app_nil_r; apply filter_keeps_all;
    by apply (not_in_fmap_forall _ _ _ Hnot).
Qed.

Section Facts.
Variable UserModel_findOne : string → outcome (option UserDoc).
Variable NFTService_getNFT : string → outcome (option NFT).
Variable user_save : UserDoc → outcome unit.

Lemma likeNft_fresh_run w n s u nft :
  UserModel_findOne w = Ok (Some u) → NFTService_getNFT n = Ok (Some nft) →
  ¬ liked (default [] (likedNFTs u)) nft →
  likeNft UserModel_findOne NFTService_getNFT user_save w n s =
    let u' := with_likes u (Some (default [] (likedNFTs u) ++ [key_of nft])%list) in
    (match user_save u' with
     | Ok _ => Ok u'
     | Throw _ => Throw (Error "Couldn't like NFT")
     end,
     {| usersCache := usersCache s; writes := (writes s ++ [WSaveUser u'])%list |}).
Proof.
  intros Hu Hn Hnot. unfold likeNft. svc_unfold. rewrite Hu, Hn. cbn.
  unfold liked, key_of in *.
  destruct (likedNFTs u) as [likes|]; cbn in *.
  - destruct (String.eqb (nft_serieId nft) "0"); cbn;
      rewrite bool_decide_eq_false_2 by done; cbn;
      by destruct (user_save _) as [[]|].
  - by destruct (user_save _) as [[]|].
Qed.

Lemma likeNft_liked_run w n s u nft likes :
  UserModel_findOne w = Ok (Some u) → NFTService_getNFT n = Ok (Some nft) →
  likedNFTs u = Some likes → liked likes nft →
  likeNft UserModel_findOne NFTService_getNFT user_save w n s =
    (Throw (Error "Couldn't like NFT"), s).
Proof.
  intros Hu Hn Hl Hliked. unfold likeNft. svc_unfold. rewrite Hu, Hn. cbn.
  rewrite Hl. unfold liked in Hliked.
  destruct (String.eqb (nft_serieId nft) "0"); cbn;
    by rewrite bool_decide_eq_true_2.
Qed.

Lemma unlikeNft_liked_run w n s u nft likes :
  UserModel_findOne w = Ok (Some u) → NFTService_getNFT n = Ok (Some nft) →
  likedNFTs u = Some likes → liked likes nft →
  unlikeNft UserModel_findOne NFTService_getNFT user_save w n s =
    let u' := with_likes u (Some (without likes nft)) in
    (match user_save u' with
     | Ok _ => Ok u'
     | Throw _ => Throw (Error "Couldn't unlike NFT")
     end,
     {| usersCache := usersCache s; writes := (writes s ++ [WSaveUser u'])%list |}).
Proof.
  intros Hu Hn Hl Hliked. unfold unlikeNft. svc_unfold. rewrite Hu, Hn. cbn. rewrite Hl.
  unfold liked, without, key_of in *.
  destruct (String.eqb (nft_serieId nft) "0"); cbn;
    rewrite bool_decide_eq_true_2 by done; cbn;
    by destruct (user_save _) as [[]|].
Qed.

Lemma unlikeNft_not_liked_run w n s u nft :
  UserModel_findOne w = Ok (Some u) → NFTService_getNFT n = Ok (Some nft) →
  ¬ liked (default [] (likedNFTs u)) nft →
  unlikeNft UserModel_findOne NFTService_getNFT user_save w n s =
    (Throw (Error "Couldn't unlike NFT"), s).
Proof.
  intros Hu Hn Hnot. unfold unlikeNft. svc_unfold. rewrite Hu, Hn. cbn.
  destruct (likedNFTs u) as [likes|]; [|done]. cbn in Hnot.
  unfold liked in Hnot.
  destruct (String.eqb (nft_serieId nft) "0"); cbn;
    by rewrite bool_decide_eq_false_2.
Qed.

(** X7. [likeNft] on a user and an NFT that exist, when the like rule does
    not find the NFT among the user's likes (a missing like list counts as
    empty): the like is appended at the end of the list, the document is
    saved once in that state and returned. *)
Theorem likeNft_appends_like w n s u nft :
  UserModel_findOne w = Ok (Some u) → NFTService_getNFT n = Ok (Some nft) →
  ¬ liked (default [] (likedNFTs u)) nft →
  user_save (with_likes u (Some (default [] (likedNFTs u) ++ [key_of nft])%list)) = Ok tt →
  likeNft UserModel_findOne NFTService_getNFT user_save w n s =
    (Ok (with_likes u (Some (default [] (likedNFTs u) ++ [key_of nft])%list)),
     {| usersCache := usersCache s;
        writes := (writes s ++
                   [WSaveUser (with_likes u (Some (default [] (likedNFTs u)
                                                   ++ [key_of nft])%list))])%list |}).
Proof.
  intros Hu Hn Hnot Hsave. rewrite (likeNft_fresh_run w n s u nft) by done.
  cbn zeta. by rewrite Hsave.
Qed.

(** X8. [likeNft] refuses an NFT the like rule finds among the likes: for
    series "0" an NFT with the same id, for any other series any NFT of that
    series, the same one or another.  Nothing is written, and the caller
    sees "Couldn't like NFT". *)
Theorem likeNft_refuses_liked w n s u nft likes :
  UserModel_findOne w = Ok (Some u) → NFTService_getNFT n = Ok (Some nft) →
  likedNFTs u = Some likes → liked likes nft →
  likeNft UserModel_findOne NFTService_getNFT user_save w n s =
    (Throw (Error "Couldn't like NFT"), s).
Proof. apply likeNft_liked_run. Qed.

(** X9. Whatever goes wrong in [likeNft] or [unlikeNft] (user or NFT not
    found, already liked, not liked, the database failing), the caller
    sees one message per method; the messages thrown inside never get out. *)
Theorem like_errors_are_masked w n s :
  (∀ e, (likeNft UserModel_findOne NFTService_getNFT user_save w n s).1 = Throw e →
        e = Error "Couldn't like NFT") ∧
  (∀ e, (unlikeNft UserModel_findOne NFTService_getNFT user_save w n s).1 = Throw e →
        e = Error "Couldn't unlike NFT").
Proof.
  split; intros e; unfold likeNft, unlikeNft, try_catch;
    match goal with |- context [match ?m s with _ => _ end] => destruct (m s) as [[?|?] ?] end;
    cbn; intros; congruence.
Qed.

(** X10. [unlikeNft] on an NFT the like rule finds: every like it matches
    is removed (all likes with that NFT id for series "0", all likes of the
    series otherwise), the others stay in order, the document is saved once
    and returned; afterwards the rule no longer finds the NFT. *)
Theorem unlikeNft_removes_likes w n s u nft likes :
  UserModel_findOne w = Ok (Some u) → NFTService_getNFT n = Ok (Some nft) →
  likedNFTs u = Some likes → liked likes nft →
  user_save (with_likes u (Some (without likes nft))) = Ok tt →
  unlikeNft UserModel_findOne NFTService_getNFT user_save w n s =
    (Ok (with_likes u (Some (without likes nft))),
     {| usersCache := usersCache s;
        writes := (writes s ++ [WSaveUser (with_likes u (Some (without likes nft)))])%list |}) ∧
  ¬ liked (without likes nft) nft ∧
  without likes nft ⊆+ likes.
Proof.
  intros Hu Hn Hl Hliked Hsave.
  rewrite (unlikeNft_liked_run w n s u nft likes) by done.
  cbn zeta. rewrite Hsave. split; [done|]. split; [apply without_not_liked|].
  unfold without. destruct (String.eqb _ _); apply sublist_submseteq, sublist_filter.
Qed.

(** X11. [unlikeNft] on an NFT the like rule does not find, or on a user
    without a like list, fails with "Couldn't unlike NFT" and writes
    nothing. *)
Theorem unlikeNft_refuses_not_liked w n s u nft :
  UserModel_findOne w = Ok (Some u) → NFTService_getNFT n = Ok (Some nft) →
  ¬ liked (default [] (likedNFTs u)) nft →
  unlikeNft UserModel_findOne NFTService_getNFT user_save w n s =
    (Throw (Error "Couldn't unlike NFT"), s).
Proof. apply unlikeNft_not_liked_run. Qed.

Lemma liked_after_like likes nft : liked (likes ++ [key_of nft]) nft.
Proof.
  unfold liked. destruct (String.eqb _ _);
    rewrite fmap_app; apply elem_of_app; right; by apply list_elem_of_singleton.
Qed.

(** X13. [likeNft] and [unlikeNft] keep the like list free of doubles: if
    no series other than "0" is liked twice and no NFT of series "0" is
    liked twice, the same holds for the list they save. *)
Theorem likes_stay_single w n s u nft likes :
  UserModel_findOne w = Ok (Some u) → NFTService_getNFT n = Ok (Some nft) →
  likedNFTs u = Some likes → one_like_each likes →
  (∀ u', (likeNft UserModel_findOne NFTService_getNFT user_save w n s).1 = Ok u' →
         ∃ likes', likedNFTs u' = Some likes' ∧ one_like_each likes') ∧
  (∀ u', (unlikeNft UserModel_findOne NFTService_getNFT user_save w n s).1 = Ok u' →
         ∃ likes', likedNFTs u' = Some likes' ∧ one_like_each likes').
Proof.
  intros Hu Hn Hl [Hseries Hzero]. split; intros u' Hrun.
  - destruct (decide (liked likes nft)) as [Hliked|Hnot].
    { by rewrite (likeNft_liked_run w n s u nft likes) in Hrun. }
    rewrite (likeNft_fresh_run w n s u nft) in Hrun by (rewrite ?Hl; done).
    cbn in Hrun. destruct (user_save _); [|done]. injection Hrun as <-.
    rewrite Hl. cbn. eexists; split; [done|].
    unfold one_like_each, liked in *.
    rewrite !filter_app, !fmap_app, !filter_cons, !filter_nil. cbn [key_of serieId nftId].
    destruct (String.eqb (nft_serieId nft) "0") eqn:Hs.
    + apply String.eqb_eq in Hs. rewrite Hs.
      rewrite decide_False by (by intros ?). rewrite decide_True by done.
      cbn. rewrite app_nil_r. split; [done|].
      apply NoDup_app. split; [done|]. split; [|apply NoDup_singleton].
      intros k Hk Hk'. apply list_elem_of_singleton in Hk'. subst k.
      apply Hnot. apply list_elem_of_fmap in Hk as (x & -> & Hx).
      apply list_elem_of_filter in Hx as [_ Hx].
      apply list_elem_of_fmap. by exists x.
    + apply String.eqb_neq in Hs.
      rewrite decide_True by done. rewrite decide_False by done.
      cbn. rewrite app_nil_r. split; [|done].
      apply NoDup_app. split; [done|]. split; [|apply NoDup_singleton].
      intros k Hk Hk'. apply list_elem_of_singleton in Hk'. subst k.
      apply Hnot. apply list_elem_of_fmap in Hk as (x & -> & Hx).
      apply list_elem_of_filter in Hx as [_ Hx].
      apply list_elem_of_fmap. by exists x.
  - destruct (decide (liked likes nft)) as [Hliked|Hnot].
    2:{ by rewrite (unlikeNft_not_liked_run w n s u nft) in Hrun by (rewrite ?Hl; done). }
    rewrite (unlikeNft_liked_run w n s u nft likes) in Hrun by done.
    cbn in Hrun. destruct (user_save _); [|done]. injection Hrun as <-.
    cbn. eexists; split; [done|].
    assert (Hsub : sublist (without likes nft) likes).
    { unfold without. destruct (String.eqb _ _); apply sublist_filter. }
    unfold one_like_each. split.
    + eapply sublist_NoDup; [exact Hseries|]. by apply sublist_fmap_filter.
    + eapply sublist_NoDup; [exact Hzero|]. by apply sublist_fmap_filter.
Qed.

End Facts.

(** X12. A like followed by an unlike of the same NFT gives the like list
    back as it was (the empty list if the user had none): two documents are
    saved, and the second carries the original likes.  A second like in
    place of the unlike is refused and writes nothing. *)
Theorem like_then_unlike_restores
    (UserModel_findOne UserModel_findOne_after : string → outcome (option UserDoc))
    (NFTService_getNFT : string → outcome (option NFT))
    (user_save : UserDoc → outcome unit) w n s u nft :
  UserModel_findOne w = Ok (Some u) → NFTService_getNFT n = Ok (Some nft) →
  ¬ liked (default [] (likedNFTs u)) nft →
  (∀ d, user_save d = Ok tt) →
  UserModel_findOne_after w =
    Ok (Some (with_likes u (Some (default [] (likedNFTs u) ++ [key_of nft])%list))) →
  ∃ u1 s1,
    likeNft UserModel_findOne NFTService_getNFT user_save w n s = (Ok u1, s1) ∧
    unlikeNft UserModel_findOne_after NFTService_getNFT user_save w n s1 =
      (Ok (with_likes u (Some (default [] (likedNFTs u)))),
       {| usersCache := usersCache s;
          writes := (writes s ++
                     [WSaveUser u1;
                      WSaveUser (with_likes u (Some (default [] (likedNFTs u))))])%list |}) ∧
    likeNft UserModel_findOne_after NFTService_getNFT user_save w n s1 =
      (Throw (Error "Couldn't like NFT"), s1).
Proof.
  intros Hu Hn Hnot Hsave Hafter.
  eexists _, _. split.
  { rewrite (likeNft_fresh_run UserModel_findOne NFTService_getNFT user_save w n s u nft)
      by done.
    cbn zeta. by rewrite Hsave. }
  split.
  - rewrite (unlikeNft_liked_run UserModel_findOne_after NFTService_getNFT user_save
               w n _ _ nft _ Hafter Hn eq_refl (liked_after_like _ _)).
    cbn zeta. rewrite Hsave, without_after_like by done.
    cbn [usersCache writes with_likes walletId likedNFTs twitterName twitterVerified].
    by rewrite <- app_assoc.
  - by rewrite (likeNft_liked_run UserModel_findOne_after NFTService_getNFT user_save
                  w n _ _ nft _ Hafter Hn eq_refl (liked_after_like _ _)).
Qed.



Lemma alice_likes_single :
  one_like_each [ {| serieId := "0"; nftId := "10" |}; {| serieId := "7"; nftId := "21" |} ].
Proof. split; decide_by_running. Defined.

Lemma likeNft_appends_like_witness :
  (likeNft (holding alice) sample_getNFT save_ok "5Alice" "30" empty_svc).1 =
    Ok (with_likes alice
          (Some [ {| serieId := "0"; nftId := "10" |}; {| serieId := "7"; nftId := "21" |};
                  {| serieId := "0"; nftId := "30" |} ])).
Proof.
  rewrite (likeNft_appends_like (holding alice) sample_getNFT save_ok "5Alice" "30"
             empty_svc alice {| nft_id := "30"; nft_serieId := "0" |}
             eq_refl eq_refl ltac:(decide_by_running) eq_refl).
  reflexivity.
Defined.

Lemma likeNft_refuses_liked_witness :
  likeNft (holding alice) sample_getNFT save_ok "5Alice" "22" empty_svc =
    (Throw (Error "Couldn't like NFT"), empty_svc).
Proof.
  apply (likeNft_refuses_liked (holding alice) sample_getNFT save_ok "5Alice" "22"
           empty_svc alice {| nft_id := "22"; nft_serieId := "7" |} _ eq_refl eq_refl eq_refl).
  decide_by_running.
Defined.

Lemma unlikeNft_removes_likes_witness :
  (unlikeNft (holding alice) sample_getNFT save_ok "5Alice" "22" empty_svc).1 =
    Ok (with_likes alice (Some [ {| serieId := "0"; nftId := "10" |} ])).
Proof.
  rewrite (proj1 (unlikeNft_removes_likes (holding alice) sample_getNFT save_ok "5Alice" "22"
                    empty_svc alice {| nft_id := "22"; nft_serieId := "7" |} _
                    eq_refl eq_refl eq_refl ltac:(decide_by_running) eq_refl)).
  reflexivity.
Defined.

Lemma unlikeNft_refuses_not_liked_witness :
  unlikeNft (holding alice) sample_getNFT save_ok "5Alice" "30" empty_svc =
    (Throw (Error "Couldn't unlike NFT"), empty_svc).
Proof.
  apply (unlikeNft_refuses_not_liked (holding alice) sample_getNFT save_ok "5Alice" "30"
           empty_svc alice {| nft_id := "30"; nft_serieId := "0" |} eq_refl eq_refl).
  decide_by_running.
Defined.

Lemma like_then_unlike_restores_witness :
  ∃ u1 s1,
    likeNft (holding alice) sample_getNFT save_ok "5Alice" "30" empty_svc = (Ok u1, s1) ∧
    (unlikeNft (holding u1) sample_getNFT save_ok "5Alice" "30" s1).1 = Ok alice.
Proof.
  destruct (like_then_unlike_restores (holding alice)
              (holding (with_likes alice
                          (Some (default [] (likedNFTs alice)
                                 ++ [key_of {| nft_id := "30"; nft_serieId := "0" |}])%list)))
              sample_getNFT save_ok
              "5Alice" "30" empty_svc alice {| nft_id := "30"; nft_serieId := "0" |}
              eq_refl eq_refl ltac:(decide_by_running) (λ _, eq_refl) eq_refl)
    as (u1 & s1 & Hlike & Hunlike & _).
  exists u1, s1. split; [exact Hlike|].
  injection Hlike as <- <-. vm_compute. reflexivity.
Defined.

Lemma likes_stay_single_witness :
  ∃ likes', likedNFTs (with_likes alice
                         (Some [ {| serieId := "0"; nftId := "10" |};
                                 {| serieId := "7"; nftId := "21" |};
                                 {| serieId := "0"; nftId := "30" |} ])) = Some likes' ∧
            one_like_each likes'.
Proof.
  apply (proj1 (likes_stay_single (holding alice) sample_getNFT save_ok "5Alice" "30"
                  empty_svc alice {| nft_id := "30"; nft_serieId := "0" |} _
                  eq_refl eq_refl eq_refl alice_likes_single)).
  vm_compute. reflexivity.
Defined.

End UserOpsFacts.

(** * Properties of [updateUser] and [findUser] *)

Module UserProfileFacts.
Import UserOps.
Import UserOpsFacts.

(** ** Methods that leave the cache alone *)

Lemma keeps_cache_bind {A B} (m : Svc A) (f : A → Svc B) :
  keeps_cache m → (∀ a, keeps_cache (f a)) → keeps_cache (m ≫= f).
Proof.
  intros Hm Hf s. unfold mbind, Svc_bind. specialize (Hm s).
  destruct (m s) as [[a|e] s']; cbn in *; [|done].
  by rewrite Hf.
Qed.

Lemma keeps_cache_try {A} (m : Svc A) (h : exn → Svc A) :
  keeps_cache m → (∀ e, keeps_cache (h e)) → keeps_cache (try_catch m h).
Proof.
  intros Hm Hh s. unfold try_catch. specialize (Hm s).
  destruct (m s) as [[a|e] s']; cbn in *; [done|].
  by rewrite Hh.
Qed.

Lemma keeps_cache_answer {A} (o : outcome A) : keeps_cache (answer o).
Proof. done. Qed.
Lemma keeps_cache_raise {A} (e : exn) : keeps_cache (raise (A:=A) e).
Proof. done. Qed.
Lemma keeps_cache_ret {A} (a : A) : keeps_cache (mret a).
Proof. done. Qed.
Lemma keeps_cache_write {A} wr (o : outcome A) : keeps_cache (request_write wr o).
Proof. done. Qed.

Ltac keeps_cache_steps :=
  repeat first
    [ apply keeps_cache_try; [|intros ?]
    | apply keeps_cache_bind; [|intros ?]
    | apply keeps_cache_answer
    | apply keeps_cache_raise
    | apply keeps_cache_ret
    | apply keeps_cache_write
    | match goal with
      | |- keeps_cache (if ?b then _ else _) => destruct b
      | |- keeps_cache (match ?x with _ => _ end) => destruct x
      end ].

Section Update.
Variable UserModel_findOne : string → outcome (option UserDoc).
Variable UserModel_findOneAndUpdate : string → UserUpdate → outcome (option UserDoc).
Variable JSON_parse : value → outcome value.
Variable isValidSignature : value → value → value → outcome bool.
Variable validateUrl : string → bool.
Variable validateTwitter : string → bool.

(** X14. When the signature check does not answer true (it answers false,
    it throws, or [data.walletId] cannot be read), [updateUser] throws
    "Invalid signature" and requests no write. *)
Theorem updateUser_invalid_signature w wd s data :
  JSON_parse (wd_data wd) = Ok data →
  (∀ signer, get_prop data "walletId" = Ok signer →
             isValidSignature (wd_data wd) (wd_signedMessage wd) signer ≠ Ok true) →
  updateUser UserModel_findOne UserModel_findOneAndUpdate JSON_parse isValidSignature
    validateUrl validateTwitter w wd s = (Throw (Error "Invalid signature"), s).
Proof.
  intros Hparse Hsig. unfold updateUser. svc_unfold. rewrite Hparse. cbn.
  destruct (get_prop data "walletId") as [signer|e] eqn:Hprop; cbn; [|done].
  specialize (Hsig signer eq_refl).
  destruct (isValidSignature _ _ signer) as [[]|e]; cbn; done.
Qed.

Lemma updateUser_checked_run w wd s fields :
  JSON_parse (wd_data wd) = Ok (VObj fields) →
  isValidSignature (wd_data wd) (wd_signedMessage wd) (assoc "walletId" fields) = Ok true →
  updateUser UserModel_findOne UserModel_findOneAndUpdate JSON_parse isValidSignature
    validateUrl validateTwitter w wd s =
    if profile_error validateUrl validateTwitter fields
    then (Throw (Error "Couldn't update user"), s)
    else
      match UserModel_findOne w with
      | Ok (Some old) =>
          (UserModel_findOneAndUpdate w (update_of fields old),
           {| usersCache := usersCache s;
              writes := (writes s ++ [WUpdateUser w (update_of fields old)])%list |})
      | Ok None => (Throw (TypeError "Cannot read property 'twitterVerified' of null"), s)
      | Throw e => (Throw e, s)
      end.
Proof.
  intros Hparse Hsig. unfold updateUser. svc_unfold. rewrite Hparse. cbn.
  rewrite Hsig. cbn. unfold profile_error.
  destruct (_ || _); cbn; [done|].
  destruct (UserModel_findOne w) as [[old|]|e]; cbn; [|done..].
  unfold update_of. destruct (strict_eq _ _); cbn;
    by destruct (UserModel_findOneAndUpdate _ _).
Qed.

(** X15. With a valid signature, a profile that fails one of the seven
    checks (for one, a name that is missing, not a string or empty) is
    refused with "Couldn't update user" before the database is asked for
    anything. *)
Theorem updateUser_rejects_bad_profile w wd s fields :
  JSON_parse (wd_data wd) = Ok (VObj fields) →
  isValidSignature (wd_data wd) (wd_signedMessage wd) (assoc "walletId" fields) = Ok true →
  (profile_error validateUrl validateTwitter fields = true →
   updateUser UserModel_findOne UserModel_findOneAndUpdate JSON_parse isValidSignature
    validateUrl validateTwitter w wd s = (Throw (Error "Couldn't update user"), s)) ∧
  (bad_name (assoc "name" fields) = true →
   profile_error validateUrl validateTwitter fields = true).
Proof.
  intros Hparse Hsig. split.
  - intros Herr. rewrite (updateUser_checked_run w wd s fields) by done. by rewrite Herr.
  - intros Hname. unfold profile_error. by rewrite Hname.
Qed.

(** X16. With a valid signature and a profile that passes the checks,
    [updateUser] requests exactly one update, for the wallet id it was
    called with, whatever wallet id the signed data names.  The update
    carries the seven profile fields as parsed; [twitterVerified] keeps the
    stored value when the twitter name is unchanged and is set to false
    when it changes. *)
Theorem updateUser_writes_once w wd s fields old :
  JSON_parse (wd_data wd) = Ok (VObj fields) →
  isValidSignature (wd_data wd) (wd_signedMessage wd) (assoc "walletId" fields) = Ok true →
  profile_error validateUrl validateTwitter fields = false →
  UserModel_findOne w = Ok (Some old) →
  updateUser UserModel_findOne UserModel_findOneAndUpdate JSON_parse isValidSignature
    validateUrl validateTwitter w wd s =
    (UserModel_findOneAndUpdate w (update_of fields old),
     {| usersCache := usersCache s;
        writes := (writes s ++ [WUpdateUser w (update_of fields old)])%list |}) ∧
  (strict_eq (twitterName old) (assoc "twitterName" fields) = true →
   u_twitterVerified (update_of fields old) = twitterVerified old) ∧
  (strict_eq (twitterName old) (assoc "twitterName" fields) = false →
   u_twitterVerified (update_of fields old) = VBool false).
Proof.
  intros Hparse Hsig Hok Hold.
  rewrite (updateUser_checked_run w wd s fields) by done. rewrite Hok, Hold.
  split; [done|]. unfold update_of; cbn. split; by intros ->.
Qed.

(** X17. With a valid signature and a valid profile, a wallet id that has
    no document makes [updateUser] fail with the TypeError of reading
    [twitterVerified] of [null]; no update is requested. *)
Theorem updateUser_unknown_wallet w wd s fields :
  JSON_parse (wd_data wd) = Ok (VObj fields) →
  isValidSignature (wd_data wd) (wd_signedMessage wd) (assoc "walletId" fields) = Ok true →
  profile_error validateUrl validateTwitter fields = false →
  UserModel_findOne w = Ok None →
  updateUser UserModel_findOne UserModel_findOneAndUpdate JSON_parse isValidSignature
    validateUrl validateTwitter w wd s =
    (Throw (TypeError "Cannot read property 'twitterVerified' of null"), s).
Proof.
  intros Hparse Hsig Hok Hnone.
  rewrite (updateUser_checked_run w wd s fields) by done. by rewrite Hok, Hnone.
Qed.

Lemma updateUser_keeps_cache w wd :
  keeps_cache (updateUser UserModel_findOne UserModel_findOneAndUpdate JSON_parse
                 isValidSignature validateUrl validateTwitter w wd).
Proof. unfold updateUser. keeps_cache_steps. Qed.

End Update.


Lemma foldl_max_lt d rest b :
  (foldl Z.max d rest < b)%Z ↔ (d < b)%Z ∧ Forall (λ x, (x < b)%Z) rest.
Proof.
  revert d. induction rest as [|x rest IH]; intros d; cbn [foldl].
  - rewrite Forall_nil. tauto.
  - rewrite IH, Forall_cons, Z.max_lub_lt_iff. tauto.
Qed.

Lemma max_date_old gap now ds :
  match max_date ds with
  | None => true
  | Some last => (gap <? now - last)%Z
  end = true ↔ Forall (λ d, (d + gap < now)%Z) ds.
Proof.
  destruct ds as [|d rest]; cbn [max_date].
  - rewrite Forall_nil. tauto.
  - rewrite Z.ltb_lt. split.
    + intros Hlt.
      assert (Hmax : (foldl Z.max d rest < now - gap)%Z) by lia.
      apply foldl_max_lt in Hmax as [Hd Hrest].
      apply Forall_cons. split; [lia|].
      eapply Forall_impl; [exact Hrest|]. intros x Hx. cbn in Hx. lia.
    + intros [Hd Hrest]%Forall_cons.
      enough (foldl Z.max d rest < now - gap)%Z by lia.
      apply foldl_max_lt. split; [lia|].
      eapply Forall_impl; [exact Hrest|]. intros x Hx. cbn in Hx. lia.
Qed.

Lemma no_recent_view_filter gap now ip views :
  Forall (λ d, (d + gap < now)%Z) (date <$> filter (λ x, viewerIp x = Some ip) views)
  ↔ no_recent_view gap now ip views.
Proof.
  unfold no_recent_view. rewrite Forall_fmap.
  induction views as [|v views IH]; [by rewrite filter_nil, !Forall_nil|].
  rewrite filter_cons, Forall_cons. case_decide as Hip.
  - rewrite Forall_cons, IH. cbn. tauto.
  - rewrite IH. tauto.
Qed.

Section Find.
Variable UserModel_findOne : string → outcome (option UserDoc).
Variable UserViewModel_find : string → outcome (list UserView).
Variable view_save : UserView → outcome unit.
Variable TIME_BETWEEN_SAME_USER_VIEWS : Z.

(** X18. [findUser] with [incViews] for a viewer with a non-empty IP address
    records the view exactly when every stored view of this profile from
    that address is more than TIME_BETWEEN_SAME_USER_VIEWS older than now
    (in particular when there is none): then one view is saved and the count
    is the number of stored views plus one; otherwise nothing is saved and
    the count is the number of stored views. *)
Theorem findUser_counts_view w viewer ip ignoreCache now s u views :
  UserModel_findOne w = Ok (Some u) → UserViewModel_find w = Ok views →
  ip ≠ "" → view_save (new_view w viewer ip now) = Ok tt →
  (no_recent_view TIME_BETWEEN_SAME_USER_VIEWS now ip views →
   findUser UserModel_findOne UserViewModel_find view_save TIME_BETWEEN_SAME_USER_VIEWS
     w true viewer (Some ip) ignoreCache now s =
   (Ok (Fetched u (Z.of_nat (length views) + 1)),
    {| usersCache := cache_after_fetch w u s;
       writes := (writes s ++ [WSaveView (new_view w viewer ip now)])%list |})) ∧
  (¬ no_recent_view TIME_BETWEEN_SAME_USER_VIEWS now ip views →
   findUser UserModel_findOne UserViewModel_find view_save TIME_BETWEEN_SAME_USER_VIEWS
     w true viewer (Some ip) ignoreCache now s =
   (Ok (Fetched u (Z.of_nat (length views))),
    {| usersCache := cache_after_fetch w u s; writes := writes s |})).
Proof.
  intros Hu Hv Hip Hsave.
  apply String.eqb_neq in Hip.
  assert (Hrun : ∀ b,
    ((length views =? 0)%nat ||
     match max_date (date <$> filter (λ x, viewerIp x = Some ip) views) with
     | None => true
     | Some last => (TIME_BETWEEN_SAME_USER_VIEWS <? now - last)%Z
     end) = b →
    findUser UserModel_findOne UserViewModel_find view_save TIME_BETWEEN_SAME_USER_VIEWS
      w true viewer (Some ip) ignoreCache now s =
    if b
    then (Ok (Fetched u (Z.of_nat (length views) + 1)),
          {| usersCache := cache_after_fetch w u s;
             writes := (writes s ++ [WSaveView (new_view w viewer ip now)])%list |})
    else (Ok (Fetched u (Z.of_nat (length views))),
          {| usersCache := cache_after_fetch w u s; writes := writes s |})).
  { intros b Hb. destruct s as [cache ws].
    unfold new_view in *. unfold findUser, cache_after_fetch. svc_unfold.
    rewrite Hu, Hv, Hip, Hb, andb_false_r. cbn [negb andb].
    destruct b; rewrite ?Hsave; cbn; destruct (cache !! w); cbn; done. }
  assert (Hiff : ((length views =? 0)%nat ||
     match max_date (date <$> filter (λ x, viewerIp x = Some ip) views) with
     | None => true
     | Some last => (TIME_BETWEEN_SAME_USER_VIEWS <? now - last)%Z
     end) = true ↔ no_recent_view TIME_BETWEEN_SAME_USER_VIEWS now ip views).
  { rewrite orb_true_iff, max_date_old, no_recent_view_filter.
    split; [|by right]. intros [Hlen|H]; [|done].
    apply Nat.eqb_eq in Hlen. destruct views; [|done]. apply Forall_nil_2. }
  split; intros Hcond.
  - by rewrite (Hrun true) by (by apply Hiff).
  - rewrite (Hrun false); [done|].
    apply not_true_is_false. by rewrite Hiff.
Qed.

(** X19. [findUser] with [incViews] for a viewer without an IP address
    ([null] or the empty string) never records a view: nothing is saved and
    the count is the number of stored views. *)
Theorem findUser_anonymous_view w viewer viewerIp ignoreCache now s u views :
  UserModel_findOne w = Ok (Some u) → UserViewModel_find w = Ok views →
  viewerIp = None ∨ viewerIp = Some "" →
  findUser UserModel_findOne UserViewModel_find view_save TIME_BETWEEN_SAME_USER_VIEWS
    w true viewer viewerIp ignoreCache now s =
  (Ok (Fetched u (Z.of_nat (length views))),
   {| usersCache := cache_after_fetch w u s; writes := writes s |}).
Proof.
  intros Hu Hv Hip. destruct s as [cache ws].
  unfold findUser, cache_after_fetch. svc_unfold.
  rewrite Hu, Hv, andb_false_r.
  destruct Hip as [-> | ->]; cbn; destruct (cache !! w); cbn; done.
Qed.

(** X20. When no document has the wallet id (and the answer does not come
    from the cache), [findUser] throws an error whose message is "ErrorUser
    can't be found": the text of the empty error thrown inside, glued in
    front of the method's message.  The cache is not filled and nothing is
    written. *)
Theorem findUser_not_found w incViews viewer viewerIp ignoreCache now s :
  UserModel_findOne w = Ok None →
  ignoreCache = true ∨ incViews = true ∨ usersCache s !! w = None →
  findUser UserModel_findOne UserViewModel_find view_save TIME_BETWEEN_SAME_USER_VIEWS
    w incViews viewer viewerIp ignoreCache now s =
  (Throw (Error "ErrorUser can't be found"), s).
Proof.
  intros Hu Hmiss. unfold findUser. svc_unfold. rewrite Hu.
  destruct Hmiss as [-> | [-> | Hnone]]; cbn; rewrite ?andb_false_r; cbn; try done.
  destruct (negb ignoreCache && negb incViews); cbn; rewrite ?Hnone; done.
Qed.

(** X21. [findUser] never replaces a cache entry: when the cache holds a
    document for the wallet id, it holds the same document afterwards,
    whatever the arguments, also with [ignoreCache] and after a fetch that
    answered a newer document. *)
Theorem findUser_keeps_cached_entry w incViews viewer viewerIp ignoreCache now s cached :
  usersCache s !! w = Some cached →
  usersCache
    (findUser UserModel_findOne UserViewModel_find view_save TIME_BETWEEN_SAME_USER_VIEWS
       w incViews viewer viewerIp ignoreCache now s).2 = usersCache s.
Proof.
  intros Hc. destruct s as [cache ws]. cbn [usersCache] in *.
  unfold findUser. svc_unfold.
  destruct (negb ignoreCache && negb incViews); cbn; rewrite ?Hc; cbn; [done|].
  destruct (UserModel_findOne w) as [[u|]|e]; cbn; [|done..].
  destruct incViews; cbn.
  - destruct (UserViewModel_find w) as [views|e]; cbn; [|done].
    destruct viewerIp as [ip|]; cbn.
    + destruct (negb (ip =? "") && _); cbn.
      * destruct (view_save _); cbn; rewrite ?Hc; cbn; done.
      * rewrite Hc. cbn. done.
    + rewrite Hc. cbn. done.
  - rewrite Hc. cbn. done.
Qed.

End Find.


Lemma likeNft_keeps_cache findOne getNFT save w n :
  keeps_cache (likeNft findOne getNFT save w n).
Proof. unfold likeNft, like_key. keeps_cache_steps. Qed.

Lemma unlikeNft_keeps_cache findOne getNFT save w n :
  keeps_cache (unlikeNft findOne getNFT save w n).
Proof. unfold unlikeNft, like_key. keeps_cache_steps. Qed.

Lemma findUser_cache_hit findOne findViews saveView gap w viewer viewerIp now s cached :
  usersCache s !! w = Some cached →
  findUser findOne findViews saveView gap w false viewer viewerIp false now s =
    (Ok (FromCache cached), s).
Proof. intros Hc. unfold findUser. svc_unfold. cbn. by rewrite Hc. Qed.

(** X22. None of [updateUser], [likeNft] and [unlikeNft] touches
    [usersCache].  So after any of them, succeeding or failing, a
    [findUser] without [incViews] and [ignoreCache] still answers the
    document cached before, without asking the database. *)
Theorem cached_profile_survives_writes
    (findOne findOne' : string → outcome (option UserDoc))
    (findOneAndUpdate : string → UserUpdate → outcome (option UserDoc))
    (parse : value → outcome value)
    (isValid : value → value → value → outcome bool)
    (validUrl validTwitter : string → bool)
    (getNFT : string → outcome (option NFT)) (save : UserDoc → outcome unit)
    (findViews : string → outcome (list UserView)) (saveView : UserView → outcome unit)
    (gap : Z) w wd n viewer viewerIp now s cached :
  usersCache s !! w = Some cached →
  ∀ s', s' = (updateUser findOne findOneAndUpdate parse isValid validUrl validTwitter w wd s).2 ∨
        s' = (likeNft findOne getNFT save w n s).2 ∨
        s' = (unlikeNft findOne getNFT save w n s).2 →
  findUser findOne' findViews saveView gap w false viewer viewerIp false now s' =
    (Ok (FromCache cached), s').
Proof.
  intros Hc s' Hs'. apply findUser_cache_hit.
  destruct Hs' as [-> | [-> | ->]];
    [rewrite updateUser_keeps_cache|rewrite likeNft_keeps_cache|rewrite unlikeNft_keeps_cache];
    exact Hc.
Qed.

(** ** Concrete runs *)

Lemma updateUser_invalid_signature_witness :
  updateUser (holding alice) sample_update sample_parse reject_signature
    accept_string accept_string "5Alice" sample_walletData empty_svc =
  (Throw (Error "Invalid signature"), empty_svc).
Proof.
  apply (updateUser_invalid_signature (holding alice) sample_update sample_parse
           reject_signature accept_string accept_string "5Alice" sample_walletData
           empty_svc (VObj sample_fields) eq_refl).
  intros signer _. discriminate.
Defined.

Lemma updateUser_rejects_bad_profile_witness :
  updateUser (holding alice) sample_update nameless_parse accept_signature
    accept_string accept_string "5Alice" sample_walletData empty_svc =
  (Throw (Error "Couldn't update user"), empty_svc).
Proof.
  exact (proj1 (updateUser_rejects_bad_profile (holding alice) sample_update nameless_parse
                  accept_signature accept_string accept_string "5Alice" sample_walletData
                  empty_svc _ eq_refl eq_refl) eq_refl).
Defined.

Lemma updateUser_writes_once_witness :
  writes (updateUser (holding alice) sample_update sample_parse accept_signature
            accept_string accept_string "5Alice" sample_walletData empty_svc).2 =
    [WUpdateUser "5Alice" (update_of sample_fields alice)] ∧
  u_twitterVerified (update_of sample_fields alice) = VBool false ∧
  assoc "walletId" sample_fields = VStr "5Bob".
Proof.
  destruct (updateUser_writes_once (holding alice) sample_update sample_parse
              accept_signature accept_string accept_string "5Alice" sample_walletData
              empty_svc sample_fields alice eq_refl eq_refl eq_refl eq_refl)
    as (Hrun & _ & Hreset).
  split; [by rewrite Hrun|]. split; [by apply Hreset|reflexivity].
Defined.

Lemma updateUser_unknown_wallet_witness :
  updateUser nobody sample_update sample_parse accept_signature
    accept_string accept_string "5Carol" sample_walletData empty_svc =
  (Throw (TypeError "Cannot read property 'twitterVerified' of null"), empty_svc).
Proof.
  exact (updateUser_unknown_wallet nobody sample_update sample_parse accept_signature
           accept_string accept_string "5Carol" sample_walletData empty_svc
           sample_fields eq_refl eq_refl eq_refl eq_refl).
Defined.

Lemma findUser_counts_view_witness :
  (findUser (holding alice) sample_find_views view_save_ok 3000
     "5Alice" true None (Some "10.0.0.1") false 6000 empty_svc).1 = Ok (Fetched alice 3) ∧
  (findUser (holding alice) sample_find_views view_save_ok 3000
     "5Alice" true None (Some "10.0.0.2") false 6000 empty_svc).1 = Ok (Fetched alice 2).
Proof.
  split.
  - rewrite (proj1 (findUser_counts_view (holding alice) sample_find_views view_save_ok 3000
                      "5Alice" None "10.0.0.1" false 6000 empty_svc alice sample_views
                      eq_refl eq_refl ltac:(discriminate) eq_refl)); [reflexivity|].
    unfold no_recent_view. decide_by_running.
  - rewrite (proj2 (findUser_counts_view (holding alice) sample_find_views view_save_ok 3000
                      "5Alice" None "10.0.0.2" false 6000 empty_svc alice sample_views
                      eq_refl eq_refl ltac:(discriminate) eq_refl)); [reflexivity|].
    unfold no_recent_view. intros Hall.
    apply Forall_cons in Hall as [_ Hall]. apply Forall_cons in Hall as [H2 _].
    specialize (H2 eq_refl). cbn in H2. lia.
Defined.

Lemma findUser_anonymous_view_witness :
  findUser (holding alice) sample_find_views view_save_ok 3000
    "5Alice" true None None false 6000 empty_svc =
  (Ok (Fetched alice 2), cache_with_alice).
Proof.
  rewrite (findUser_anonymous_view (holding alice) sample_find_views view_save_ok 3000
             "5Alice" None None false 6000 empty_svc alice sample_views
             eq_refl eq_refl (or_introl eq_refl)).
  vm_compute. reflexivity.
Defined.

Lemma findUser_not_found_witness :
  findUser nobody sample_find_views view_save_ok 3000
    "5Carol" false None None false 6000 empty_svc =
  (Throw (Error "ErrorUser can't be found"), empty_svc).
Proof.
  apply (findUser_not_found nobody sample_find_views view_save_ok 3000
           "5Carol" false None None false 6000 empty_svc eq_refl).
  right. right. reflexivity.
Defined.

Lemma findUser_keeps_cached_entry_witness :
  usersCache
    (findUser (holding (with_likes alice None)) sample_find_views view_save_ok 3000
       "5Alice" false None None true 6000 cache_with_alice).2 !! "5Alice" = Some alice.
Proof.
  rewrite (findUser_keeps_cached_entry (holding (with_likes alice None)) sample_find_views
             view_save_ok 3000 "5Alice" false None None true 6000 cache_with_alice alice
             eq_refl).
  reflexivity.
Defined.

Lemma cached_profile_survives_writes_witness :
  findUser (holding (with_likes alice None)) sample_find_views view_save_ok 3000
    "5Alice" false None None false 6000
    (updateUser (holding alice) sample_update sample_parse accept_signature
       accept_string accept_string "5Alice" sample_walletData cache_with_alice).2 =
  (Ok (FromCache alice),
   (updateUser (holding alice) sample_update sample_parse accept_signature
      accept_string accept_string "5Alice" sample_walletData cache_with_alice).2).
Proof.
  apply (cached_profile_survives_writes (holding alice) (holding (with_likes alice None))
           sample_update sample_parse accept_signature accept_string accept_string
           sample_getNFT save_ok sample_find_views view_save_ok 3000
           "5Alice" sample_walletData "30" None None 6000 cache_with_alice alice eq_refl).
  by left.
Defined.

End UserProfileFacts.
